(** * RightLight: trip-point interpolation and transition scheduling

    A shallow embedding of [custom_components/right_light/right_light.py]
    (class [RightLight]) together with the properties of its trip-point
    tables, its bracketing scan, its value computation and its schedule
    bookkeeping.

    Conventions of the embedding.
    - A [datetime] is the number of microseconds of local wall-clock time
      since a fixed local midnight; a [timedelta] is a number of
      microseconds.  Both are [Z].
    - A Python [float] is a binary64 primitive float.  Python integers that
      meet a float are converted with [Z2F], and the true division of two
      integers is the division of their conversions.  Both agree with
      Python for magnitudes below [2^53], where the conversion is exact;
      that covers a day of microseconds and every table entry of the
      program.
    - [self] is the record [RightLight]; the Home Assistant instance the
      object talks to is the record [Hass], which logs the service calls
      made and the tasks created on the event loop.
    - Exceptions are values of [exn]; a method is a function from the store
      to an outcome and a new store.  The single unbounded loop of the
      program, in [enumerateTripPoints], runs on fuel. *)

From Stdlib Require Import ZArith Lia Floats Uint63.
From stdpp Require Import base option list gmap strings.

Set Warnings "-inexact-float".
Local Open Scope Z_scope.

(** ** Time *)

Module Dt.

Definition SECOND : Z := 1000000.
Definition MINUTE : Z := 60 * SECOND.
Definition DAY : Z := 86400 * SECOND.

(** [timedelta(minutes=m)] *)
Definition minutes (m : Z) : Z := m * MINUTE.

(** [d.seconds] of a normalised [timedelta]: the seconds field lies in
    [0, 86400), the days field carries the sign. *)
Definition seconds (d : Z) : Z := (d mod DAY) / SECOND.

(** [t.replace(microsecond=0, second=s, minute=m, hour=h)] *)
Definition replace_hms (t h m s : Z) : Z :=
  t - t mod DAY + (h * 3600 + m * 60 + s) * SECOND.

(** [t.replace(day=.., month=.., year=..)] with the date of [now]: the
    time of day of [t] on the day of [now]. *)
Definition replace_date (t now : Z) : Z := now - now mod DAY + t mod DAY.

(** The calendar date of an instant. *)
Definition date (t : Z) : Z := t / DAY.

End Dt.

(** ** Python values used by the program *)

(** Exceptions the modelled code can raise. *)
Inductive exn : Type :=
| KeyError (key : string)
| IndexError
| UnboundLocalError
| ZeroDivisionError.

Inductive result (A : Type) : Type :=
| Ok (a : A)
| Raise (e : exn).
Arguments Ok {A} a.
Arguments Raise {A} e.

(** A number handed to the light service: a Python [int] or [float]. *)
Inductive num : Type :=
| Int (z : Z)
| Flt (f : float).

(** [float(z)] *)
Definition Z2F (z : Z) : float :=
  if z <? 0 then PrimFloat.opp (PrimFloat.of_uint63 (Uint63.of_Z (- z)))
  else PrimFloat.of_uint63 (Uint63.of_Z z).

(** [l[i]] for a Python list, negative indices counting from the end. *)
Definition py_index {A : Type} (l : list A) (i : Z) : result A :=
  let n := Z.of_nat (length l) in
  let j := if i <? 0 then i + n else i in
  if (0 <=? j) && (j <? n) then
    match l !! Z.to_nat j with
    | Some x => Ok x
    | None => Raise IndexError
    end
  else Raise IndexError.

(** ** Trip points *)

(** The value of a trip point: [[kelvin, brightness]] or [[r, g, b]]. *)
Definition value : Type := list Z.

(** A trip point [[timestamp, value]]. *)
Definition keypoint : Type := Z * value.

Definition timestamp (kp : keypoint) : Z := fst kp.
Definition kp_value (kp : keypoint) : value := snd kp.

(** The ceiling of [a / b]. *)
Definition ceil_div (a b : Z) : Z := - ((- a) / b).

(** The body of [enumerateTripPoints]: the [while temp < self.midnight_late]
    loop, one iteration per unit of fuel.  [None] is fuel exhausted. *)
Fixpoint enumerate_loop (fuel : nat) (midnight_late time_step : Z)
    (trip_points : list value) (temp : Z) (this_ptr : nat)
    (toreturn : list keypoint) : option (result (list keypoint)) :=
  match fuel with
  | O => None
  | S fuel' =>
      if temp <? midnight_late then
        match trip_points !! this_ptr with
        | None => Some (Raise IndexError)
        | Some v =>
            let toreturn := toreturn ++ [(temp, v)] in
            let temp := temp + time_step in
            let this_ptr := S this_ptr in
            let this_ptr :=
              if (length trip_points <=? this_ptr)%nat then O else this_ptr in
            enumerate_loop fuel' midnight_late time_step trip_points
              temp this_ptr toreturn
        end
      else Some (Ok toreturn)
  end.

(** Fuel that lets the loop finish whenever it finishes at all: one
    iteration per generated point and the final failing test. *)
Definition enumerate_fuel (midnight_early midnight_late time_step : Z) : nat :=
  S (Z.to_nat (ceil_div (midnight_late - midnight_early) time_step)).

(** [enumerateTripPoints(self, time_step, trip_points)], as a function of
    the two attributes of [self] it reads. *)
Definition enumerateTripPoints (midnight_early midnight_late : Z)
    (time_step : Z) (trip_points : list value)
  : option (result (list keypoint)) :=
  enumerate_loop (enumerate_fuel midnight_early midnight_late time_step)
    midnight_late time_step trip_points midnight_early O [].

(** ** The objects *)

(** The [data] dictionary of a call of the [light] domain. *)
Inductive color : Type :=
| kelvin (ct : num)
| rgb_color (rgb : list num).

Inductive service_call : Type :=
| light_turn_on (entity_id : string) (brightness : num) (c : color)
    (transition : num)
| light_turn_off (entity_id : string) (transition : num).

(** The keyword arguments of [turn_on]; [None] is a key that is absent. *)
Record kwargs : Type := Kwargs {
  kw_nocancel : option bool;
  kw_mode : option string;
  kw_brightness : option Z;
  kw_brightness_override : option Z;
  kw_transition : option num
}.

(** What a task created with [delay_run(seconds, coro, ...)] awaits after
    its sleep. *)
Inductive coro : Type :=
| async_call (c : service_call)
| call_turn_on (kw : kwargs).

Record task : Type := Task {
  delay : Z;
  target : coro;
  cancelled : bool
}.

(** A handle is the task object returned by [create_task]: its position in
    the list of tasks ever created on the loop. *)
Abbreviation handle := nat.

Record Hass : Type := MkHass {
  calls : list service_call;
  tasks : list task
}.

Record RightLight : Type := MkRightLight {
  _entity : string;
  _debug : Z;
  _mode : string;
  _brightness : Z;
  _brightness_override : Z;
  today : option Z;
  now : Z;
  sunrise : Z;
  sunset : Z;
  midnight_early : Z;
  ten_thirty : Z;
  midnight_late : Z;
  trip_points : gmap string (list keypoint);
  _ct_high : Z;
  _ct_scalar : float;
  _br_over_ct_mult : Z;
  on_transition : float;
  off_transition : float;
  _currSched : list handle
}.

(** What the outside world answers during one call: the clock, the solar
    source and the random generator. *)
Record Env : Type := MkEnv {
  dt_now : Z;
  date_today : Z;
  sun_get_sunrise_time : Z;
  sun_get_sunset_time : Z;
  random_randrange_1_5 : Z
}.

Record Store : Type := MkStore {
  self : RightLight;
  hass : Hass
}.

(** Attribute assignment. *)
Definition set_mode (v : string) (o : RightLight) : RightLight :=
  MkRightLight (_entity o) (_debug o) v (_brightness o)
    (_brightness_override o) (today o) (now o) (sunrise o) (sunset o)
    (midnight_early o) (ten_thirty o) (midnight_late o) (trip_points o)
    (_ct_high o) (_ct_scalar o) (_br_over_ct_mult o) (on_transition o)
    (off_transition o) (_currSched o).

Definition set_brightness (v : Z) (o : RightLight) : RightLight :=
  MkRightLight (_entity o) (_debug o) (_mode o) v
    (_brightness_override o) (today o) (now o) (sunrise o) (sunset o)
    (midnight_early o) (ten_thirty o) (midnight_late o) (trip_points o)
    (_ct_high o) (_ct_scalar o) (_br_over_ct_mult o) (on_transition o)
    (off_transition o) (_currSched o).

Definition set_brightness_override (v : Z) (o : RightLight) : RightLight :=
  MkRightLight (_entity o) (_debug o) (_mode o) (_brightness o)
    v (today o) (now o) (sunrise o) (sunset o)
    (midnight_early o) (ten_thirty o) (midnight_late o) (trip_points o)
    (_ct_high o) (_ct_scalar o) (_br_over_ct_mult o) (on_transition o)
    (off_transition o) (_currSched o).

Definition set_today (v : option Z) (o : RightLight) : RightLight :=
  MkRightLight (_entity o) (_debug o) (_mode o) (_brightness o)
    (_brightness_override o) v (now o) (sunrise o) (sunset o)
    (midnight_early o) (ten_thirty o) (midnight_late o) (trip_points o)
    (_ct_high o) (_ct_scalar o) (_br_over_ct_mult o) (on_transition o)
    (off_transition o) (_currSched o).

Definition set_now (v : Z) (o : RightLight) : RightLight :=
  MkRightLight (_entity o) (_debug o) (_mode o) (_brightness o)
    (_brightness_override o) (today o) v (sunrise o) (sunset o)
    (midnight_early o) (ten_thirty o) (midnight_late o) (trip_points o)
    (_ct_high o) (_ct_scalar o) (_br_over_ct_mult o) (on_transition o)
    (off_transition o) (_currSched o).

Definition set_sun (rise set : Z) (o : RightLight) : RightLight :=
  MkRightLight (_entity o) (_debug o) (_mode o) (_brightness o)
    (_brightness_override o) (today o) (now o) rise set
    (midnight_early o) (ten_thirty o) (midnight_late o) (trip_points o)
    (_ct_high o) (_ct_scalar o) (_br_over_ct_mult o) (on_transition o)
    (off_transition o) (_currSched o).

Definition set_markers (early ten late : Z) (o : RightLight) : RightLight :=
  MkRightLight (_entity o) (_debug o) (_mode o) (_brightness o)
    (_brightness_override o) (today o) (now o) (sunrise o) (sunset o)
    early ten late (trip_points o)
    (_ct_high o) (_ct_scalar o) (_br_over_ct_mult o) (on_transition o)
    (off_transition o) (_currSched o).

Definition set_trip_points (v : gmap string (list keypoint))
    (o : RightLight) : RightLight :=
  MkRightLight (_entity o) (_debug o) (_mode o) (_brightness o)
    (_brightness_override o) (today o) (now o) (sunrise o) (sunset o)
    (midnight_early o) (ten_thirty o) (midnight_late o) v
    (_ct_high o) (_ct_scalar o) (_br_over_ct_mult o) (on_transition o)
    (off_transition o) (_currSched o).

Definition set_currSched (v : list handle) (o : RightLight) : RightLight :=
  MkRightLight (_entity o) (_debug o) (_mode o) (_brightness o)
    (_brightness_override o) (today o) (now o) (sunrise o) (sunset o)
    (midnight_early o) (ten_thirty o) (midnight_late o) (trip_points o)
    (_ct_high o) (_ct_scalar o) (_br_over_ct_mult o) (on_transition o)
    (off_transition o) v.

(** ** Methods as store transformers *)

(** [None]: the call does not return (a loop ran out of fuel).
    [Some (Raise e, st)]: exception [e] left the method with the store as
    it was when the exception was raised. *)
Definition M (A : Type) : Type := Store -> option (result A * Store).

Definition ret {A : Type} (a : A) : M A := fun st => Some (Ok a, st).

Definition raise {A : Type} (e : exn) : M A := fun st => Some (Raise e, st).

Definition bind {A B : Type} (m : M A) (k : A -> M B) : M B :=
  fun st =>
    match m st with
    | None => None
    | Some (Ok a, st') => k a st'
    | Some (Raise e, st') => Some (Raise e, st')
    end.

Notation "x <- m ;; k" := (bind m (fun x => k))
  (at level 100, m at next level, right associativity).
Notation "m ;; k" := (bind m (fun _ => k))
  (at level 100, right associativity).

Definition lift {A : Type} (r : result A) : M A :=
  fun st => Some (r, st).

Definition lift_loop {A : Type} (r : option (result A)) : M A :=
  fun st => match r with None => None | Some x => Some (x, st) end.

Definition get_self : M RightLight := fun st => Some (Ok (self st), st).

Definition assign (f : RightLight -> RightLight) : M unit :=
  fun st => Some (Ok tt, MkStore (f (self st)) (hass st)).

Definition on_hass (f : Hass -> Hass) : M unit :=
  fun st => Some (Ok tt, MkStore (self st) (f (hass st))).

(** [await self._hass.services.async_call("light", ..., data)] *)
Definition services_async_call (c : service_call) : M unit :=
  on_hass (fun h => MkHass (calls h ++ [c]) (tasks h)).

(** [self._hass.loop.create_task(self.delay_run(seconds, coro, ...))] *)
Definition create_task (seconds : Z) (c : coro) : M handle :=
  fun st =>
    let h := hass st in
    Some (Ok (length (tasks h)),
          MkStore (self st)
            (MkHass (calls h) (tasks h ++ [Task seconds c false]))).

(** The task list after [ret.cancel()] on the task at position [ret_]. *)
Definition cancel_task (ts : list task) (ret_ : handle) : list task :=
  alter (fun t => Task (delay t) (target t) true) ret_ ts.

(** [ret.cancel()] *)
Definition cancel (ret_ : handle) : M unit :=
  on_hass (fun h => MkHass (calls h) (cancel_task (tasks h) ret_)).

(** [_cancelSched]: [while self._currSched: ret = self._currSched.pop(0);
    ret.cancel()], by recursion on the list the loop consumes. *)
Fixpoint _cancelSched_loop (pending : list handle) : M unit :=
  match pending with
  | [] => ret tt
  | ret_ :: rest =>
      assign (set_currSched rest) ;;
      cancel ret_ ;;
      _cancelSched_loop rest
  end.

Definition _cancelSched : M unit :=
  o <- get_self ;;
  _cancelSched_loop (_currSched o).

Definition _addSched (ret_ : handle) : M unit :=
  assign (fun o => set_currSched (_currSched o ++ [ret_]) o).

Definition disable : M unit := _cancelSched.

Definition disable_and_turn_off (kw : kwargs) : M unit :=
  _cancelSched ;;
  assign (set_brightness 0) ;;
  o <- get_self ;;
  services_async_call
    (light_turn_off (_entity o)
       (default (Flt (off_transition o)) (kw_transition kw))).

(** ** The curve builder *)

Definition debug_trip_points : list value := [[2500; 120]; [4000; 255]].

Definition vivid_trip_points : list value :=
  [[255; 0; 0]; [202; 0; 127]; [130; 0; 255]; [0; 0; 255]; [0; 90; 190];
   [0; 200; 200]; [0; 255; 0]; [255; 255; 0]; [255; 127; 0]].

Definition bright_trip_points : list value :=
  [[255; 100; 100]; [202; 80; 127]; [150; 70; 255]; [90; 90; 255];
   [60; 100; 190]; [70; 200; 200]; [80; 255; 80]; [255; 255; 0];
   [255; 127; 70]].

Definition calm_trip_points : list value :=
  [[255; 0; 0]; [202; 0; 127]; [130; 0; 255]; [0; 0; 255]; [0; 90; 190];
   [0; 200; 200]; [0; 255; 0]; [255; 127; 0]].

Definition one_trip_points : list value := [[0; 104; 255]; [255; 0; 255]].

Definition two_trip_points : list value := [[255; 0; 255]; [0; 104; 255]].

(** The ten anchors appended to [trip_points["Normal"]] outside debug
    mode. *)
Definition normal_trip_points (o : RightLight) : list keypoint :=
  [ (midnight_early o, [2500; 150]);
    (sunrise o - Dt.minutes 60, [2500; 120]);
    (sunrise o - Dt.minutes 30, [2700; 170]);
    (sunrise o, [3200; 155]);
    (sunrise o + Dt.minutes 30, [4700; 255]);
    (sunset o - Dt.minutes 90, [4200; 255]);
    (sunset o - Dt.minutes 30, [3200; 255]);
    (sunset o, [3000; 255]);
    (ten_thirty o, [2700; 255]);
    (midnight_late o, [2500; 150]) ].

(** [self.trip_points[name] = c] *)
Definition set_curve (name : string) (c : list keypoint) : M unit :=
  assign (fun o => set_trip_points (<[name := c]> (trip_points o)) o).

(** [self.enumerateTripPoints(time_step, trip_points)] *)
Definition enumerate (time_step : Z) (palette : list value)
  : M (list keypoint) :=
  o <- get_self ;;
  lift_loop
    (enumerateTripPoints (midnight_early o) (midnight_late o)
       time_step palette).

Definition defineTripPoints : M unit :=
  set_curve "Normal" [] ;;
  let timestep := Dt.minutes 2 in
  o <- get_self ;;
  (if _debug o =? 2 then
     c <- enumerate (timestep / 8) debug_trip_points ;;
     set_curve "Normal" c
   else set_curve "Normal" (normal_trip_points o)) ;;
  c <- enumerate timestep vivid_trip_points ;;
  set_curve "Vivid" c ;;
  c <- enumerate (timestep / 8) vivid_trip_points ;;
  set_curve "Fun1" c ;;
  c <- enumerate (timestep / 8)
         (drop 1 vivid_trip_points ++ take 1 vivid_trip_points) ;;
  set_curve "Fun2" c ;;
  c <- enumerate timestep bright_trip_points ;;
  set_curve "Bright" c ;;
  c <- enumerate timestep calm_trip_points ;;
  set_curve "Calm" c ;;
  c <- enumerate timestep one_trip_points ;;
  set_curve "One" c ;;
  c <- enumerate timestep two_trip_points ;;
  set_curve "Two" c.

Definition _getNow (env : Env) : M unit :=
  assign (set_now (dt_now env)) ;;
  o <- get_self ;;
  let rerun := negb (bool_decide (Some (date_today env) = today o)) in
  assign (set_today (Some (date_today env))) ;;
  if rerun then
    o <- get_self ;;
    assign (set_sun (Dt.replace_date (sun_get_sunrise_time env) (now o))
                    (Dt.replace_date (sun_get_sunset_time env) (now o))) ;;
    assign (set_markers (Dt.replace_hms (now o) 0 0 0)
                        (Dt.replace_hms (now o) 22 30 0)
                        (Dt.replace_hms (now o) 23 59 59)) ;;
    defineTripPoints
  else ret tt.

(** ** The interpolator *)

(** [for next in range(0, len(tp)): if tp[next][0] >= now: break].
    The last argument is the loop variable: unbound before the first
    iteration, and left at the last index when the loop runs to its end. *)
Fixpoint scan_loop (tp : list keypoint) (now_ : Z) (i : nat)
    (next : option nat) : option nat :=
  match tp with
  | [] => next
  | kp :: rest =>
      if now_ <=? timestamp kp then Some i
      else scan_loop rest now_ (S i) (Some i)
  end.

Definition scan (tp : list keypoint) (now_ : Z) : option nat :=
  scan_loop tp now_ O None.

(** [(now - prev_time) / (next_time - prev_time)] on timedeltas: the true
    division of two numbers of microseconds. *)
Definition time_ratio (now_ prev_time next_time : Z) : result float :=
  if next_time - prev_time =? 0 then Raise ZeroDivisionError
  else Ok (Z2F (now_ - prev_time) / Z2F (next_time - prev_time))%float.

(** Brightness and colour temperature of one trip point of the Normal
    curve: [br_max * (brightness + override)] and
    [ct_max - (ct_high - ct_max) * (1 - br_max) * ct_scalar]. *)
Definition derive (o : RightLight) (v : value) : result (float * float) :=
  match py_index v 1 with
  | Raise e => Raise e
  | Ok cap =>
      let br_max := (Z2F cap / Z2F 255)%float in
      let br := (br_max * Z2F (_brightness o + _brightness_override o))%float in
      match py_index v 0 with
      | Raise e => Raise e
      | Ok ct_max =>
          let ct_delta :=
            (Z2F (_ct_high o - ct_max) * (1 - br_max) * _ct_scalar o)%float in
          Ok (br, (Z2F ct_max - ct_delta)%float)
      end
  end.

(** [(x_next - x_prev) * time_ratio + x_prev] *)
Definition scale (x_prev x_next ratio : float) : float :=
  ((x_next - x_prev) * ratio + x_prev)%float.

(** [if br > 255: br_over = br - 255; br = 255;
     ct = ct + br_over * self._br_over_ct_mult] *)
Definition clamp_br (o : RightLight) (br ct : float) : num * float :=
  if (255 <? br)%float
  then (Int 255, (ct + (br - 255) * Z2F (_br_over_ct_mult o))%float)
  else (Flt br, ct).

(** [if br_next > 255: br_next = 255] *)
Definition clamp_next (br_next : float) : num :=
  if (255 <? br_next)%float then Int 255 else Flt br_next.

(** [prev_rgb[c] + (next_rgb[c] - prev_rgb[c]) * time_ratio] *)
Definition channel (prev_c next_c : Z) (ratio : float) : float :=
  (Z2F prev_c + Z2F (next_c - prev_c) * ratio)%float.

(** The three channels, read in the order the source reads them. *)
Definition now_rgb (prev_rgb next_rgb : value) (ratio : float)
  : result (list num) :=
  let chan (c : Z) : result float :=
    match py_index prev_rgb c with
    | Raise e => Raise e
    | Ok p =>
        match py_index next_rgb c with
        | Raise e => Raise e
        | Ok n => Ok (channel p n ratio)
        end
    end in
  match chan 0 with
  | Raise e => Raise e
  | Ok r_now =>
      match chan 1 with
      | Raise e => Raise e
      | Ok g_now =>
          match chan 2 with
          | Raise e => Raise e
          | Ok b_now => Ok [Flt r_now; Flt g_now; Flt b_now]
          end
      end
  end.

(** ** [turn_on] *)

(** The Normal branch, from the bracketing pair on. *)
Definition turn_on_normal (env : Env) (this_transition : num)
    (kp_prev kp_next : keypoint) (ratio : float) (time_rem : Z) : M unit :=
  o <- get_self ;;
  d_prev <- lift (derive o (kp_value kp_prev)) ;;
  d_next <- lift (derive o (kp_value kp_next)) ;;
  let br := scale (fst d_prev) (fst d_next) ratio in
  let ct := scale (snd d_prev) (snd d_next) ratio in
  let now_v := clamp_br o br ct in
  let br_next := clamp_next (fst d_next) in
  services_async_call
    (light_turn_on (_entity o) (fst now_v) (kelvin (Flt (snd now_v)))
       this_transition) ;;
  ret_ <- create_task (random_randrange_1_5 env)
            (async_call
               (light_turn_on (_entity o) br_next (kelvin (Flt (snd d_next)))
                  (Int time_rem))) ;;
  _addSched ret_ ;;
  ret_ <- create_task (time_rem + 1)
            (call_turn_on
               (Kwargs (Some true) None (Some (_brightness o))
                  (Some (_brightness_override o)) None)) ;;
  _addSched ret_.

(** The branch of every other mode. *)
Definition turn_on_rgb (env : Env) (this_transition : num)
    (kp_prev kp_next : keypoint) (ratio : float) (time_rem : Z) : M unit :=
  o <- get_self ;;
  let prev_rgb := kp_value kp_prev in
  let next_rgb := kp_value kp_next in
  rgb <- lift (now_rgb prev_rgb next_rgb ratio) ;;
  services_async_call
    (light_turn_on (_entity o) (Int (_brightness o)) (rgb_color rgb)
       this_transition) ;;
  ret_ <- create_task (random_randrange_1_5 env)
            (async_call
               (light_turn_on (_entity o) (Int (_brightness o))
                  (rgb_color (map Int next_rgb)) (Int time_rem))) ;;
  _addSched ret_ ;;
  ret_ <- create_task (time_rem + 1)
            (call_turn_on
               (Kwargs (Some true) (Some (_mode o)) (Some (_brightness o))
                  None None)) ;;
  _addSched ret_.

(** [turn_on] from the reading of the [transition] key on, once the
    schedule is cancelled, the clock read and the three attributes set. *)
Definition turn_on_body (env : Env) (kw : kwargs) : M unit :=
  o <- get_self ;;
  let this_transition := default (Flt (on_transition o)) (kw_transition kw) in
  if _brightness o =? 0 then disable_and_turn_off kw
  else
    match trip_points o !! _mode o with
    | None => raise (KeyError (_mode o))
    | Some tp =>
        match scan tp (now o) with
        | None => raise UnboundLocalError
        | Some next =>
            let prev := Z.of_nat next - 1 in
            kp_prev <- lift (py_index tp prev) ;;
            kp_next <- lift (py_index tp (Z.of_nat next)) ;;
            let prev_time := timestamp kp_prev in
            let next_time := timestamp kp_next in
            ratio <- lift (time_ratio (now o) prev_time next_time) ;;
            let time_rem := Dt.seconds (next_time - now o) in
            if bool_decide (_mode o = "Normal")
            then turn_on_normal env this_transition kp_prev kp_next ratio
                   time_rem
            else turn_on_rgb env this_transition kp_prev kp_next ratio
                   time_rem
        end
    end.

Definition turn_on (env : Env) (kw : kwargs) : M unit :=
  let nocancel := default false (kw_nocancel kw) in
  (if negb nocancel then _cancelSched else ret tt) ;;
  _getNow env ;;
  assign (set_mode (default "Normal" (kw_mode kw))) ;;
  assign (set_brightness (default 255 (kw_brightness kw))) ;;
  assign (set_brightness_override (default 0 (kw_brightness_override kw))) ;;
  turn_on_body env kw.

(** [RightLight(ent, hass, debug)]: the attributes set by [__init__], then
    its call of [_getNow].  The attributes that [__init__] leaves undefined
    and that every method assigns before reading are given a value here. *)
Definition new_RightLight (ent : string) (debug : Z) : RightLight :=
  MkRightLight ent debug "Off" 0 0 None 0 0 0 0 0 0 ∅
    5000 0.35%float 6 0.2%float 0.2%float [].

Definition __init__ (ent : string) (h : Hass) (debug : Z) (env : Env)
  : option (result unit * Store) :=
  _getNow env (MkStore (new_RightLight ent debug) h).

(** ** Reference definitions for the statements *)

(** The cyclic palette curve in closed form: point [i] is at
    [midnight + i * step] and carries [palette[i mod k]]; there are
    [ceil(D / step)] points, [D] the span from midnight to end of day. *)
Definition cyclic_curve (midnight_early midnight_late time_step : Z)
    (palette : list value) : list keypoint :=
  map (fun i : nat =>
         (midnight_early + Z.of_nat i * time_step,
          palette !!! (i mod length palette)%nat))
      (seq 0 (Z.to_nat (ceil_div (midnight_late - midnight_early) time_step))).

(** The points the palette walk still has to append when it stands at
    [temp] with its pointer at [ptr] and [n] iterations to go. *)
Definition rest_of_walk (time_step : Z) (palette : list value) (n : nat)
    (temp : Z) (ptr : nat) : list keypoint :=
  map (fun i : nat =>
         (temp + Z.of_nat i * time_step,
          palette !!! ((ptr + i) mod length palette)%nat))
      (seq 0 n).

(** The names under which [defineTripPoints] stores a curve. *)
Definition mode_names : list string :=
  ["Normal"; "Vivid"; "Fun1"; "Fun2"; "Bright"; "Calm"; "One"; "Two"].

(** The curve set [defineTripPoints] leaves in [self.trip_points], with
    every palette walk in closed form. *)
Definition built_trip_points (o : RightLight) : gmap string (list keypoint) :=
  let walk := cyclic_curve (midnight_early o) (midnight_late o) in
  let timestep := Dt.minutes 2 in
  <["Two" := walk timestep two_trip_points]>
    (<["One" := walk timestep one_trip_points]>
       (<["Calm" := walk timestep calm_trip_points]>
          (<["Bright" := walk timestep bright_trip_points]>
             (<["Fun2" := walk (timestep / 8)
                            (drop 1 vivid_trip_points ++
                             take 1 vivid_trip_points)]>
                (<["Fun1" := walk (timestep / 8) vivid_trip_points]>
                   (<["Vivid" := walk timestep vivid_trip_points]>
                      (<["Normal" :=
                           if _debug o =? 2
                           then walk (timestep / 8) debug_trip_points
                           else normal_trip_points o]>
                         (<["Normal" := []]> (trip_points o))))))))).

(** The task list once every handle of [pending] is cancelled. *)
Definition cancel_tasks (pending : list handle) (ts : list task) : list task :=
  foldl cancel_task ts pending.

(** The attributes no method assigns. *)
Definition same_settings (o o' : RightLight) : Prop :=
  _entity o' = _entity o /\ _debug o' = _debug o /\
  _ct_high o' = _ct_high o /\ _ct_scalar o' = _ct_scalar o /\
  _br_over_ct_mult o' = _br_over_ct_mult o /\
  on_transition o' = on_transition o /\
  off_transition o' = off_transition o.

(** The values of the keys of a [turn_on] call, defaults filled in. *)
Definition arg_nocancel (kw : kwargs) : bool := default false (kw_nocancel kw).
Definition arg_mode (kw : kwargs) : string := default "Normal" (kw_mode kw).
Definition arg_brightness (kw : kwargs) : Z := default 255 (kw_brightness kw).
Definition arg_brightness_override (kw : kwargs) : Z :=
  default 0 (kw_brightness_override kw).
Definition arg_transition (o : RightLight) (kw : kwargs) : num :=
  default (Flt (on_transition o)) (kw_transition kw).

(** The three actions of a cycle of the Normal mode. *)
Definition normal_immediate (o : RightLight) (kw : kwargs)
    (d_prev d_next : float * float) (ratio : float) : service_call :=
  let now_v :=
    clamp_br o (scale (fst d_prev) (fst d_next) ratio)
      (scale (snd d_prev) (snd d_next) ratio) in
  light_turn_on (_entity o) (fst now_v) (kelvin (Flt (snd now_v)))
    (arg_transition o kw).

Definition normal_drift (o : RightLight) (d_next : float * float)
    (time_rem : Z) : service_call :=
  light_turn_on (_entity o) (clamp_next (fst d_next))
    (kelvin (Flt (snd d_next))) (Int time_rem).

Definition normal_rearm (o : RightLight) : kwargs :=
  Kwargs (Some true) None (Some (_brightness o))
    (Some (_brightness_override o)) None.

(** The three actions of a cycle of any other mode. *)
Definition rgb_immediate (o : RightLight) (kw : kwargs) (rgb : list num)
  : service_call :=
  light_turn_on (_entity o) (Int (_brightness o)) (rgb_color rgb)
    (arg_transition o kw).

Definition rgb_drift (o : RightLight) (next_rgb : value) (time_rem : Z)
  : service_call :=
  light_turn_on (_entity o) (Int (_brightness o))
    (rgb_color (map Int next_rgb)) (Int time_rem).

Definition rgb_rearm (o : RightLight) : kwargs :=
  Kwargs (Some true) (Some (_mode o)) (Some (_brightness o)) None None.

(** The store after a cycle that made the call [immediate] and created the
    tasks [drift] and [rearm]. *)
Definition after_cycle (o : RightLight) (h : Hass) (immediate : service_call)
    (drift : service_call) (time_rem : Z) (rand : Z) (rearm : kwargs)
  : Store :=
  let n := length (tasks h) in
  MkStore (set_currSched (_currSched o ++ [n; S n]) o)
    (MkHass (calls h ++ [immediate])
       (tasks h ++ [Task rand (async_call drift) false;
                    Task (time_rem + 1) (call_turn_on rearm) false])).

(** The bracketing pair of a curve at [now], with the ratio and the
    remaining seconds the code derives from it. *)
Record bracket : Type := Bracket {
  b_next : nat;
  b_kp_prev : keypoint;
  b_kp_next : keypoint;
  b_ratio : float;
  b_time_rem : Z
}.

Definition bracket_of (tp : list keypoint) (now_ : Z) (b : bracket) : Prop :=
  scan tp now_ = Some (b_next b) /\
  py_index tp (Z.of_nat (b_next b) - 1) = Ok (b_kp_prev b) /\
  py_index tp (Z.of_nat (b_next b)) = Ok (b_kp_next b) /\
  time_ratio now_ (timestamp (b_kp_prev b)) (timestamp (b_kp_next b))
    = Ok (b_ratio b) /\
  b_time_rem b = Dt.seconds (timestamp (b_kp_next b) - now_).

(** The store [turn_on_body] starts from in a call of [turn_on]: the
    schedule cancelled unless [nocancel], the clock read, the curves
    rebuilt on a new day, and the three attributes set from the keys. *)
Definition after_prologue (env : Env) (kw : kwargs) (st : Store)
    (o : RightLight) (h : Hass) : Prop :=
  h = (if arg_nocancel kw then hass st
       else MkHass (calls (hass st))
              (cancel_tasks (_currSched (self st)) (tasks (hass st)))) /\
  _currSched o = (if arg_nocancel kw then _currSched (self st) else []) /\
  _mode o = arg_mode kw /\
  _brightness o = arg_brightness kw /\
  _brightness_override o = arg_brightness_override kw /\
  now o = dt_now env /\
  same_settings (self st) o /\
  (forall m : string, m ∉ mode_names ->
     trip_points o !! m = trip_points (self st) !! m) /\
  (today (self st) = Some (date_today env) ->
   trip_points o = trip_points (self st)).

(** What [turn_on_body] does on the store of [o] and [h], case by case. *)
Inductive body_outcome (env : Env) (kw : kwargs) (o : RightLight) (h : Hass)
  : result unit -> Store -> Prop :=
| body_off :
    _brightness o = 0 ->
    body_outcome env kw o h (Ok tt)
      (MkStore (set_brightness 0 (set_currSched [] o))
         (MkHass
            (calls h ++
             [light_turn_off (_entity o)
                (default (Flt (off_transition o)) (kw_transition kw))])
            (cancel_tasks (_currSched o) (tasks h))))
| body_unknown_mode :
    _brightness o <> 0 ->
    trip_points o !! _mode o = None ->
    body_outcome env kw o h (Raise (KeyError (_mode o))) (MkStore o h)
| body_raise (e : exn) (tp : list keypoint) :
    _brightness o <> 0 ->
    trip_points o !! _mode o = Some tp ->
    body_outcome env kw o h (Raise e) (MkStore o h)
| body_normal (tp : list keypoint) (b : bracket) (d_prev d_next : float * float) :
    _brightness o <> 0 ->
    _mode o = "Normal" ->
    trip_points o !! _mode o = Some tp ->
    bracket_of tp (now o) b ->
    derive o (kp_value (b_kp_prev b)) = Ok d_prev ->
    derive o (kp_value (b_kp_next b)) = Ok d_next ->
    body_outcome env kw o h (Ok tt)
      (after_cycle o h
         (normal_immediate o kw d_prev d_next (b_ratio b))
         (normal_drift o d_next (b_time_rem b)) (b_time_rem b)
         (random_randrange_1_5 env) (normal_rearm o))
| body_rgb (tp : list keypoint) (b : bracket) (rgb : list num) :
    _brightness o <> 0 ->
    _mode o <> "Normal" ->
    trip_points o !! _mode o = Some tp ->
    bracket_of tp (now o) b ->
    now_rgb (kp_value (b_kp_prev b)) (kp_value (b_kp_next b)) (b_ratio b)
      = Ok rgb ->
    body_outcome env kw o h (Ok tt)
      (after_cycle o h
         (rgb_immediate o kw rgb)
         (rgb_drift o (kp_value (b_kp_next b)) (b_time_rem b)) (b_time_rem b)
         (random_randrange_1_5 env) (rgb_rearm o)).

(** The bracketing property in the strict form
    [curve[prev].timestamp <= now < curve[next].timestamp]. *)
Definition brackets_strictly (tp : list keypoint) (now_ : Z) : Prop :=
  exists (next : nat) (kp_prev kp_next : keypoint),
    scan tp now_ = Some next /\
    py_index tp (Z.of_nat next - 1) = Ok kp_prev /\
    py_index tp (Z.of_nat next) = Ok kp_next /\
    timestamp kp_prev <= now_ < timestamp kp_next.

(** No key point of the curve is at or after [now]. *)
Definition exhausted (tp : list keypoint) (now_ : Z) : Prop :=
  forall kp : keypoint, kp ∈ tp -> timestamp kp < now_.

(** The exhausted scan as an error: the index runs to the length of the
    curve and the call fails without a device command. *)
Definition fails_exhausted (env : Env) (kw : kwargs) (st : Store)
    (tp : list keypoint) : Prop :=
  scan tp (dt_now env) = Some (length tp) /\
  exists (e : exn) (st' : Store),
    turn_on env kw st = Some (Raise e, st') /\
    calls (hass st') = calls (hass st).

(** The failure with an untouched schedule: the call raises, makes no
    service call and leaves the pending collection as it was. *)
Definition fails_leaving_schedule (env : Env) (kw : kwargs) (st : Store)
  : Prop :=
  exists (e : exn) (st' : Store),
    turn_on env kw st = Some (Raise e, st') /\
    calls (hass st') = calls (hass st) /\
    _currSched (self st') = _currSched (self st).

(** Consecutive calls of [turn_on], each on the store the one before left;
    an exception ends its call, not the sequence. *)
Fixpoint turn_on_many (cs : list (Env * kwargs)) (st : Store) : option Store :=
  match cs with
  | [] => Some st
  | c :: cs' =>
      match turn_on (fst c) (snd c) st with
      | None => None
      | Some (_, st') => turn_on_many cs' st'
      end
  end.

(** Every pending handle is a task of the loop. *)
Definition pending_valid (st : Store) : Prop :=
  Forall (fun ret_ : handle => (ret_ < length (tasks (hass st)))%nat)
    (_currSched (self st)).

(** The handles of [st'] that the call started on [st] created. *)
Definition created_since (st st' : Store) (ret_ : handle) : Prop :=
  (length (tasks (hass st)) <= ret_ < length (tasks (hass st')))%nat.

(** The task behind a handle is cancelled. *)
Definition is_cancelled (st : Store) (ret_ : handle) : Prop :=
  exists t : task, tasks (hass st) !! ret_ = Some t /\ cancelled t = true.

(** The immediate set as a registered handle: the call [turn_on] made on
    the way from [st] to [st'] is also the target of a pending task. *)
Definition registers_immediate (st st' : Store) : Prop :=
  exists (c : service_call) (ret_ : handle) (t : task),
    calls (hass st') = calls (hass st) ++ [c] /\
    ret_ ∈ _currSched (self st') /\
    tasks (hass st') !! ret_ = Some t /\
    target t = async_call c.


(** The colour temperature of a key point of the Normal curve after the
    compensation
    [kelvin_cap - (ct_high - kelvin_cap) * (1 - brightness_cap / 255) * ct_scalar]
    with [ct_high = 5000] and [ct_scalar = 0.35]. *)
Definition compensated_kelvin (kelvin_cap brightness_cap : Z) : float :=
  (Z2F kelvin_cap -
   Z2F (5000 - kelvin_cap) * (1 - Z2F brightness_cap / Z2F 255) * 0.35)%float.

(** The number of entries [turn_on] reads from the value of a key point:
    kelvin and brightness in Normal mode, three channels otherwise. *)
Definition value_width (mode : string) : nat :=
  if decide (mode = "Normal") then 2%nat else 3%nat.

(** ** A concrete installation

    A lamp set up at local midnight of day 3, sunrise at 06:00 and sunset at
    18:00 local time, the random delay drawn as 2. *)
Module Demo.

Definition midnight : Z := 3 * Dt.DAY.

(** The answers of the outside world [t] microseconds into the day. *)
Definition env_at (t : Z) : Env :=
  MkEnv (midnight + t) 3 (6 * 3600 * Dt.SECOND) (18 * 3600 * Dt.SECOND) 2.

Definition blank : Store :=
  MkStore (new_RightLight "light.lamp" 0) (MkHass [] []).

(** The store after [RightLight("light.lamp", hass)]. *)
Definition fresh : Store :=
  match __init__ "light.lamp" (MkHass [] []) 0 (env_at 0) with
  | Some (_, st) => st
  | None => blank
  end.

Definition curve (mode : string) : list keypoint :=
  default [] (trip_points (self fresh) !! mode).

Definition mode_kw (mode : string) : kwargs :=
  Kwargs None (Some mode) None None None.

(** The store a call of [turn_on] leaves. *)
Definition after (env : Env) (kw : kwargs) (st : Store) : Store :=
  match turn_on env kw st with
  | Some (_, st') => st'
  | None => st
  end.

(** The call returns without an exception. *)
Definition succeeds (env : Env) (kw : kwargs) (st : Store) : bool :=
  match turn_on env kw st with
  | Some (Ok _, _) => true
  | _ => false
  end.

(** The store after a first [turn_on()] at midnight. *)
Definition lit : Store :=
  after (env_at 0) (Kwargs None None None None None) fresh.

Definition noon : Z := 12 * 3600 * Dt.SECOND.

(** [turn_on(brightness=255, brightness_override=0)] *)
Definition plain_kw : kwargs := Kwargs None None (Some 255) (Some 0) None.

(** One minute before midnight. *)
Definition late : Z := 86340 * Dt.SECOND.

(** [turn_on(brightness=255, brightness_override=100)] *)
Definition boosted_kw : kwargs :=
  Kwargs None None (Some 255) (Some 100) None.

(** [turn_on(mode="Vivid", brightness_override=10)] *)
Definition vivid_kw : kwargs :=
  Kwargs None (Some "Vivid") None (Some 10) None.

End Demo.

(** ** The rest of the class *)

(** [getColorModes]: the keys of [self.trip_points].  The order of the
    Python list is not modelled; the statements only use membership. *)
Definition getColorModes (o : RightLight) : list string :=
  (map_to_list (trip_points o)).*1.

(** [delay_run(seconds, coro, ...)] once its sleep is over:
    it awaits [coro] on its arguments, with the answers [env] of the outside
    world at that moment. *)
Definition delay_run (env : Env) (c : coro) : M unit :=
  match c with
  | async_call sc => services_async_call sc
  | call_turn_on kw => turn_on env kw
  end.

(** ** Notions for the further statements *)

(** Timestamps grow strictly along the curve. *)
Definition increasing (tp : list keypoint) : Prop :=
  forall (i j : nat) (a b : keypoint),
    (i < j)%nat -> tp !! i = Some a -> tp !! j = Some b ->
    timestamp a < timestamp b.

(** Every value of the curve has at least [n] entries. *)
Definition values_wide (n : nat) (tp : list keypoint) : Prop :=
  Forall (fun kp : keypoint => (n <= length (kp_value kp))%nat) tp.

(** The tasks that are not cancelled are exactly the pending handles. *)
Definition tracked (o : RightLight) (h : Hass) : Prop :=
  forall (i : nat) (t : task),
    tasks h !! i = Some t -> (cancelled t = false <-> i ∈ _currSched o).

(** The object [_getNow] leaves, in closed form: the clock stored, and on a
    new date the solar instants, the day markers and the curves renewed. *)
Definition refreshed (env : Env) (o : RightLight) : RightLight :=
  let o1 := set_today (Some (date_today env)) (set_now (dt_now env) o) in
  if bool_decide (Some (date_today env) = today o) then o1
  else
    let o2 :=
      set_markers (Dt.replace_hms (dt_now env) 0 0 0)
        (Dt.replace_hms (dt_now env) 22 30 0)
        (Dt.replace_hms (dt_now env) 23 59 59)
        (set_sun (Dt.replace_date (sun_get_sunrise_time env) (dt_now env))
           (Dt.replace_date (sun_get_sunset_time env) (dt_now env)) o1) in
    set_trip_points (built_trip_points o2) o2.

(** The palette modes with the step and the palette [defineTripPoints]
    walks for each. *)
Definition palette_modes : list (string * (Z * list value)) :=
  [ ("Vivid", (Dt.minutes 2, vivid_trip_points));
    ("Fun1", (Dt.minutes 2 / 8, vivid_trip_points));
    ("Fun2", (Dt.minutes 2 / 8,
              drop 1 vivid_trip_points ++ take 1 vivid_trip_points));
    ("Bright", (Dt.minutes 2, bright_trip_points));
    ("Calm", (Dt.minutes 2, calm_trip_points));
    ("One", (Dt.minutes 2, one_trip_points));
    ("Two", (Dt.minutes 2, two_trip_points)) ].

(** The palette curves of the object are walks of a whole day, from some
    midnight to 23:59:59. *)
Definition curves_built (o : RightLight) : Prop :=
  forall (m : string) (s : Z) (p : list value),
    (m, (s, p)) ∈ palette_modes ->
    exists e : Z,
      trip_points o !! m = Some (cyclic_curve e (e + 86399 * Dt.SECOND) s p).

(** * Properties *)

(** ** Arithmetic of the ceiling *)

Lemma ceil_div_bounds (a b : Z) :
  0 < b -> b * (ceil_div a b - 1) < a <= b * ceil_div a b.
Proof.
  intros Hb. unfold ceil_div.
  pose proof (Z.div_mod (- a) b ltac:(lia)) as Hdm.
  pose proof (Z.mod_pos_bound (- a) b Hb) as Hm.
  nia.
Qed.

Lemma ceil_div_pos (a b : Z) : 0 < b -> 0 < a -> 0 < ceil_div a b.
Proof.
  intros Hb Ha. pose proof (ceil_div_bounds a b Hb). nia.
Qed.

Lemma ceil_div_nonpos (a b : Z) : 0 < b -> a <= 0 -> ceil_div a b <= 0.
Proof.
  intros Hb Ha. pose proof (ceil_div_bounds a b Hb). nia.
Qed.

Lemma ceil_div_step (a b : Z) :
  0 < b -> ceil_div (a - b) b = ceil_div a b - 1.
Proof.
  intros Hb. unfold ceil_div.
  replace (- (a - b)) with (- a + 1 * b) by lia.
  rewrite Z.div_add by lia. lia.
Qed.

(** ** The palette walk *)

Section Enumerate.

Variables (late step : Z) (palette : list value).
Hypothesis step_pos : 0 < step.
Hypothesis palette_nonempty : palette <> [].

Lemma palette_length_pos : (0 < length palette)%nat.
Proof. destruct palette; [done | simpl; lia]. Qed.

Lemma rest_of_walk_S (n : nat) (temp : Z) (ptr : nat) :
  (ptr < length palette)%nat ->
  rest_of_walk step palette (S n) temp ptr =
  (temp, palette !!! ptr) ::
  rest_of_walk step palette n (temp + step)
    (if (length palette <=? S ptr)%nat then O else S ptr).
Proof.
  intros Hptr. unfold rest_of_walk. cbn [seq map]. f_equal.
  - f_equal; [lia |]. rewrite Nat.add_0_r, Nat.mod_small; done.
  - rewrite <- seq_shift, map_map. apply map_ext. intros i. f_equal.
    + lia.
    + f_equal. destruct (Nat.leb_spec (length palette) (S ptr)).
      * assert (S ptr = length palette) as Hk by lia.
        replace (ptr + S i)%nat with (i + 1 * length palette)%nat by lia.
        rewrite Nat.Div0.mod_add. done.
      * f_equal. lia.
Qed.

Lemma enumerate_loop_walk (n : nat) :
  forall (fuel : nat) (temp : Z) (ptr : nat) (acc : list keypoint),
    (ptr < length palette)%nat ->
    n = Z.to_nat (ceil_div (late - temp) step) ->
    (n < fuel)%nat ->
    enumerate_loop fuel late step palette temp ptr acc =
    Some (Ok (acc ++ rest_of_walk step palette n temp ptr)).
Proof.
  induction n as [| n IH]; intros fuel temp ptr acc Hptr Hn Hfuel.
  - destruct fuel as [| fuel]; [lia |]. simpl.
    destruct (Z.ltb_spec temp late) as [Hlt | Hge].
    + pose proof (ceil_div_pos (late - temp) step step_pos). lia.
    + unfold rest_of_walk. simpl. by rewrite app_nil_r.
  - destruct fuel as [| fuel]; [lia |]. simpl.
    destruct (Z.ltb_spec temp late) as [Hlt | Hge].
    + destruct (lookup_lt_is_Some_2 palette ptr Hptr) as [v Hv].
      rewrite Hv.
      rewrite (IH fuel).
      * rewrite rest_of_walk_S by done.
        rewrite (list_lookup_total_correct _ _ _ Hv).
        by rewrite <- app_assoc.
      * destruct (Nat.leb_spec (length palette) (S ptr)); [apply palette_length_pos | lia].
      * replace (late - (temp + step)) with (late - temp - step) by lia.
        rewrite ceil_div_step by done. lia.
      * lia.
    + pose proof (ceil_div_nonpos (late - temp) step step_pos). lia.
Qed.

End Enumerate.

(** [enumerateTripPoints] returns, and returns the closed form. *)
Lemma enumerateTripPoints_closed_form (early late step : Z)
    (palette : list value) :
  0 < step -> palette <> [] ->
  enumerateTripPoints early late step palette =
  Some (Ok (cyclic_curve early late step palette)).
Proof.
  intros Hstep Hpal. unfold enumerateTripPoints, enumerate_fuel.
  rewrite (enumerate_loop_walk late step palette Hstep Hpal
             (Z.to_nat (ceil_div (late - early) step))).
  - done.
  - by apply palette_length_pos.
  - done.
  - lia.
Qed.

(** Outside these inputs the walk produces no curve: with a step that is
    not positive it never leaves the loop, whatever the fuel, and with an
    empty palette its first iteration raises [IndexError]. *)
Lemma enumerate_loop_diverges (late step : Z) (palette : list value) :
  step <= 0 -> palette <> [] ->
  forall (fuel : nat) (temp : Z) (ptr : nat) (acc : list keypoint),
    temp < late -> (ptr < length palette)%nat ->
    enumerate_loop fuel late step palette temp ptr acc = None.
Proof.
  intros Hstep Hpal fuel.
  induction fuel as [| fuel IH]; intros temp ptr acc Hlt Hptr; [done |].
  simpl. destruct (Z.ltb_spec temp late); [| lia].
  destruct (lookup_lt_is_Some_2 palette ptr Hptr) as [v ->].
  apply IH; [lia |].
  destruct (Nat.leb_spec (length palette) (S ptr)); [| lia].
  destruct palette; [done | simpl; lia].
Qed.

Lemma enumerateTripPoints_empty_palette (early late step : Z) :
  early < late ->
  enumerateTripPoints early late step [] = Some (Raise IndexError).
Proof.
  intros Hlt. unfold enumerateTripPoints, enumerate_fuel. simpl.
  by destruct (Z.ltb_spec early late); [| lia].
Qed.

(** C10.  For a positive step [s] and a palette of length [k > 0],
    [enumerateTripPoints] returns exactly [ceil(D / s)] key points, [D] the
    span from local midnight to end of day; key point [i] has timestamp
    [midnight + i * s] and value [palette[i mod k]]. *)
Theorem enumerateTripPoints_cyclic (early late s : Z) (palette : list value) :
  0 < s -> palette <> [] ->
  exists kps : list keypoint,
    enumerateTripPoints early late s palette = Some (Ok kps) /\
    length kps = Z.to_nat (ceil_div (late - early) s) /\
    forall i : nat, (i < length kps)%nat ->
      exists v : value,
        palette !! (i mod length palette)%nat = Some v /\
        kps !! i = Some (early + Z.of_nat i * s, v).
Proof.
  intros Hs Hpal. exists (cyclic_curve early late s palette).
  split; [by apply enumerateTripPoints_closed_form |].
  unfold cyclic_curve. rewrite length_map, length_seq.
  split; [done |]. intros i Hi.
  assert (i mod length palette < length palette)%nat as Hlt.
  { apply Nat.mod_upper_bound. destruct palette; [done | simpl; lia]. }
  destruct (lookup_lt_is_Some_2 _ _ Hlt) as [v Hv].
  exists v. split; [done |].
  rewrite list_lookup_fmap, lookup_seq_lt by done. simpl.
  by rewrite (list_lookup_total_correct _ _ _ Hv).
Qed.

(** The Vivid curve of a day: 720 points, two minutes apart. *)
Lemma enumerateTripPoints_cyclic_witness :
  exists kps : list keypoint,
    enumerateTripPoints 0 (86399 * Dt.SECOND) (Dt.minutes 2)
      vivid_trip_points = Some (Ok kps) /\
    length kps = Z.to_nat (ceil_div (86399 * Dt.SECOND - 0) (Dt.minutes 2)) /\
    forall i : nat, (i < length kps)%nat ->
      exists v : value,
        vivid_trip_points !! (i mod length vivid_trip_points)%nat = Some v /\
        kps !! i = Some (0 + Z.of_nat i * Dt.minutes 2, v).
Proof.
  apply (enumerateTripPoints_cyclic 0 (86399 * Dt.SECOND) (Dt.minutes 2)
           vivid_trip_points); [reflexivity | discriminate].
Defined.

(** ** Python indexing *)

Lemma py_index_nonneg {A : Type} (l : list A) (i : nat) (x : A) :
  l !! i = Some x -> py_index l (Z.of_nat i) = Ok x.
Proof.
  intros Hx. pose proof (lookup_lt_Some _ _ _ Hx) as Hlt.
  unfold py_index.
  destruct (Z.ltb_spec (Z.of_nat i) 0); [lia |].
  destruct (Z.leb_spec 0 (Z.of_nat i)); [| lia].
  destruct (Z.ltb_spec (Z.of_nat i) (Z.of_nat (length l))); [| lia].
  simpl. by rewrite Nat2Z.id, Hx.
Qed.

Lemma py_index_pred {A : Type} (l : list A) (i : nat) (x : A) :
  l !! i = Some x -> py_index l (Z.of_nat (S i) - 1) = Ok x.
Proof.
  intros Hx. replace (Z.of_nat (S i) - 1) with (Z.of_nat i) by lia.
  by apply py_index_nonneg.
Qed.

(** ** The bracketing scan *)

Lemma scan_loop_found (tp : list keypoint) (now_ : Z) :
  forall (i : nat) (nx : option nat),
    (exists kp, kp ∈ tp /\ now_ <= timestamp kp) ->
    exists (j : nat) (kp : keypoint),
      scan_loop tp now_ i nx = Some (i + j)%nat /\
      tp !! j = Some kp /\ now_ <= timestamp kp /\
      forall (j' : nat) (kp' : keypoint),
        (j' < j)%nat -> tp !! j' = Some kp' -> timestamp kp' < now_.
Proof.
  induction tp as [| kp0 tp IH]; intros i nx (kp & Hin & Hle).
  - by apply elem_of_nil in Hin.
  - simpl. destruct (Z.leb_spec now_ (timestamp kp0)) as [H0 | H0].
    + exists O, kp0. rewrite Nat.add_0_r. repeat split; try done.
      intros j' kp' Hj'. lia.
    + apply elem_of_cons in Hin as [-> | Hin]; [lia |].
      destruct (IH (S i) (Some i)) as (j & kpj & Hs & Hj & Hnj & Hfirst);
        [by exists kp |].
      exists (S j), kpj. rewrite Hs. repeat split; try done.
      * f_equal. lia.
      * intros [| j'] kp' Hj' Hkp'; simpl in Hkp'.
        -- by inversion Hkp'; subst.
        -- apply (Hfirst j'); [lia | done].
Qed.

Lemma scan_loop_exhausted (tp : list keypoint) (now_ : Z) :
  forall (i : nat) (nx : option nat),
    exhausted tp now_ ->
    scan_loop tp now_ i nx =
    match tp with
    | [] => nx
    | _ :: tl => Some (i + length tl)%nat
    end.
Proof.
  induction tp as [| kp0 tp IH]; intros i nx Hex; [done |].
  simpl. destruct (Z.leb_spec now_ (timestamp kp0)) as [H0 | H0].
  - pose proof (Hex kp0 ltac:(left)). lia.
  - rewrite IH.
    + destruct tp as [| kp1 tl]; simpl; f_equal; lia.
    + intros kp Hkp. apply Hex. by right.
Qed.

(** C1, as the code has it.  When [now] lies strictly after the first key
    point and some key point is at or after [now], the scan stops at the
    first index [next >= 1] whose timestamp is [>= now], [prev = next - 1],
    and [curve[prev].timestamp < now <= curve[next].timestamp]. *)
Theorem scan_brackets (tp : list keypoint) (now_ : Z) (kp0 : keypoint) :
  tp !! O = Some kp0 -> timestamp kp0 < now_ ->
  (exists kp, kp ∈ tp /\ now_ <= timestamp kp) ->
  exists (next : nat) (kp_prev kp_next : keypoint),
    scan tp now_ = Some next /\ (1 <= next)%nat /\
    py_index tp (Z.of_nat next - 1) = Ok kp_prev /\
    py_index tp (Z.of_nat next) = Ok kp_next /\
    tp !! (next - 1)%nat = Some kp_prev /\
    tp !! next = Some kp_next /\
    (forall (j : nat) (kp : keypoint),
        (j < next)%nat -> tp !! j = Some kp -> timestamp kp < now_) /\
    timestamp kp_prev < now_ <= timestamp kp_next.
Proof.
  intros H0 Hlt Hsome.
  destruct (scan_loop_found tp now_ O None Hsome)
    as (j & kpj & Hs & Hj & Hle & Hfirst).
  destruct j as [| j].
  { rewrite H0 in Hj. inversion Hj; subst. lia. }
  assert (is_Some (tp !! j)) as [kpp Hp].
  { apply lookup_lt_is_Some. apply lookup_lt_Some in Hj. lia. }
  exists (S j), kpp, kpj. simpl in Hs.
  replace (S j - 1)%nat with j by lia.
  repeat split; try done.
  - lia.
  - by apply py_index_pred.
  - by apply py_index_nonneg.
  - apply (Hfirst j); [lia | done].
Qed.

Lemma scan_brackets_witness :
  exists (next : nat) (kp_prev kp_next : keypoint),
    scan [(0, [255; 0; 0]); (120, [202; 0; 127]); (240, [130; 0; 255])] 120
      = Some next /\ (1 <= next)%nat /\
    py_index [(0, [255; 0; 0]); (120, [202; 0; 127]); (240, [130; 0; 255])]
      (Z.of_nat next - 1) = Ok kp_prev /\
    py_index [(0, [255; 0; 0]); (120, [202; 0; 127]); (240, [130; 0; 255])]
      (Z.of_nat next) = Ok kp_next /\
    [(0, [255; 0; 0]); (120, [202; 0; 127]); (240, [130; 0; 255])]
      !! (next - 1)%nat = Some kp_prev /\
    [(0, [255; 0; 0]); (120, [202; 0; 127]); (240, [130; 0; 255])]
      !! next = Some kp_next /\
    (forall (j : nat) (kp : keypoint),
        (j < next)%nat ->
        [(0, [255; 0; 0]); (120, [202; 0; 127]); (240, [130; 0; 255])]
          !! j = Some kp -> timestamp kp < 120) /\
    timestamp kp_prev < 120 <= timestamp kp_next.
Proof.
  apply (scan_brackets
           [(0, [255; 0; 0]); (120, [202; 0; 127]); (240, [130; 0; 255])]
           120 (0, [255; 0; 0])).
  - reflexivity.
  - reflexivity.
  - exists (120, [202; 0; 127]). split.
    + right. left.
    + simpl. lia.
Defined.

(** C1, as stated, fails on the built Vivid curve when [now] is the
    timestamp of a key point: two minutes past midnight the scan stops at
    index 1, whose timestamp equals [now], so [now < curve[next].timestamp]
    is false. *)
Lemma scan_not_strict_at_key_point :
  trip_points (self Demo.fresh) !! "Vivid" = Some (Demo.curve "Vivid") /\
  midnight_early (self Demo.fresh) <= Demo.midnight + Dt.minutes 2
    <= midnight_late (self Demo.fresh) /\
  scan (Demo.curve "Vivid") (Demo.midnight + Dt.minutes 2) = Some 1%nat /\
  py_index (Demo.curve "Vivid") (Z.of_nat 1) =
    Ok (Demo.midnight + Dt.minutes 2, [202; 0; 127]) /\
  ~ brackets_strictly (Demo.curve "Vivid") (Demo.midnight + Dt.minutes 2).
Proof.
  assert (scan (Demo.curve "Vivid") (Demo.midnight + Dt.minutes 2)
          = Some 1%nat) as Hs' by (vm_compute; reflexivity).
  assert (py_index (Demo.curve "Vivid") (Z.of_nat 1)
          = Ok (Demo.midnight + Dt.minutes 2, [202; 0; 127])) as Hn'
    by (vm_compute; reflexivity).
  split; [vm_compute; reflexivity |].
  split; [vm_compute; split; discriminate |].
  split; [done |]. split; [done |].
  intros (next & kp_prev & kp_next & Hs & _ & Hn & _ & Hlt).
  rewrite Hs' in Hs. injection Hs as <-.
  rewrite Hn' in Hn. injection Hn as <-.
  simpl in Hlt. lia.
Qed.

(** The loop runs to its end: [next] is left at the last index. *)
Lemma scan_exhausted (tp : list keypoint) (now_ : Z) :
  tp <> [] ->
  exhausted tp now_ ->
  scan tp now_ = Some (length tp - 1)%nat.
Proof.
  intros Hne Hex. unfold scan. rewrite scan_loop_exhausted by done.
  destruct tp as [| kp tl]; [done |]. simpl. f_equal. lia.
Qed.

(** ** Running the store transformers *)

Ltac unfold_monad :=
  unfold bind, ret, raise, lift, lift_loop, get_self, assign, on_hass,
    services_async_call, create_task, cancel, _addSched, set_curve, enumerate.

Ltac project :=
  cbn [self hass calls tasks
       _entity _debug _mode _brightness _brightness_override today now
       sunrise sunset midnight_early ten_thirty midnight_late trip_points
       _ct_high _ct_scalar _br_over_ct_mult on_transition off_transition
       _currSched
       set_mode set_brightness set_brightness_override set_today set_now
       set_sun set_markers set_trip_points set_currSched].

Ltac run := repeat (unfold_monad; project; cbv beta iota).

Lemma set_currSched_same (o : RightLight) :
  set_currSched (_currSched o) o = o.
Proof. by destruct o. Qed.

Lemma _cancelSched_loop_spec (pending : list handle) :
  forall (o : RightLight) (c : list service_call) (ts : list task),
    _cancelSched_loop pending (MkStore o (MkHass c ts)) =
    Some (Ok tt,
          MkStore (match pending with [] => o | _ => set_currSched [] o end)
            (MkHass c (cancel_tasks pending ts))).
Proof.
  induction pending as [| ret_ rest IH]; intros o c ts; [done |].
  cbn [_cancelSched_loop]. run. rewrite IH.
  by destruct rest.
Qed.

Lemma _cancelSched_spec (st : Store) :
  _cancelSched st =
  Some (Ok tt,
        MkStore (set_currSched [] (self st))
          (MkHass (calls (hass st))
             (cancel_tasks (_currSched (self st)) (tasks (hass st))))).
Proof.
  destruct st as [o [c ts]]. unfold _cancelSched. run.
  rewrite _cancelSched_loop_spec. project.
  destruct (_currSched o) eqn:Hcs; [| done].
  by rewrite <- Hcs, set_currSched_same.
Qed.

(** ** Cancelled tasks *)

Lemma length_cancel_task (ts : list task) (ret_ : handle) :
  length (cancel_task ts ret_) = length ts.
Proof. unfold cancel_task. apply length_alter. Qed.

Lemma length_cancel_tasks (pending : list handle) :
  forall ts : list task, length (cancel_tasks pending ts) = length ts.
Proof.
  induction pending as [| ret_ rest IH]; intros ts; [done |].
  unfold cancel_tasks in *. simpl. by rewrite IH, length_cancel_task.
Qed.

Lemma cancel_task_lookup (ts : list task) (ret_ i : handle) (t : task) :
  ts !! i = Some t ->
  exists t' : task,
    cancel_task ts ret_ !! i = Some t' /\
    delay t' = delay t /\ target t' = target t /\
    (cancelled t = true \/ i = ret_ -> cancelled t' = true) /\
    (cancelled t' = true -> cancelled t = true \/ i = ret_).
Proof.
  intros Hi. unfold cancel_task.
  destruct (decide (i = ret_)) as [-> | Hne].
  - rewrite list_lookup_alter_eq, Hi. simpl. eexists. split; [done |]. simpl.
    repeat split; auto.
  - rewrite (list_lookup_alter_ne _ ts ret_ i) by congruence. exists t.
    repeat split; try done; intuition.
Qed.

Lemma cancel_tasks_lookup (pending : list handle) :
  forall (ts : list task) (i : handle) (t : task),
    ts !! i = Some t ->
    exists t' : task,
      cancel_tasks pending ts !! i = Some t' /\
      delay t' = delay t /\ target t' = target t /\
      (cancelled t = true \/ i ∈ pending -> cancelled t' = true) /\
      (cancelled t' = true -> cancelled t = true \/ i ∈ pending).
Proof.
  induction pending as [| ret_ rest IH]; intros ts i t Hi.
  - exists t. repeat split; try done.
    + intros [? | Hin]; [done | by apply elem_of_nil in Hin].
    + auto.
  - destruct (cancel_task_lookup ts ret_ i t Hi)
      as (t1 & H1 & Hd1 & Ht1 & Hc1 & Hc1').
    destruct (IH _ _ _ H1) as (t2 & H2 & Hd2 & Ht2 & Hc2 & Hc2').
    exists t2. unfold cancel_tasks in *. simpl.
    repeat split; try congruence.
    + intros [Hc | Hin]; apply Hc2.
      * left. apply Hc1. by left.
      * apply elem_of_cons in Hin as [-> | Hin]; [| by right].
        left. apply Hc1. by right.
    + intros Hc. destruct (Hc2' Hc) as [Hc' | Hin].
      * destruct (Hc1' Hc') as [? | ->]; [by left | right; left].
      * right. by right.
Qed.

(** ** The clock refresh and the curve builder *)

Lemma enumerate_spec (time_step : Z) (palette : list value) (st : Store) :
  0 < time_step -> palette <> [] ->
  enumerate time_step palette st =
  Some (Ok (cyclic_curve (midnight_early (self st)) (midnight_late (self st))
              time_step palette), st).
Proof.
  intros Hs Hp. unfold enumerate. run.
  by rewrite enumerateTripPoints_closed_form.
Qed.

Lemma bind_ok {A B : Type} (m : M A) (k : A -> M B) (st st1 : Store) (a : A) :
  m st = Some (Ok a, st1) -> bind m k st = k a st1.
Proof. intros H. unfold bind. by rewrite H. Qed.

Lemma defineTripPoints_spec (o : RightLight) (h : Hass) :
  defineTripPoints (MkStore o h) =
  Some (Ok tt, MkStore (set_trip_points (built_trip_points o) o) h).
Proof.
  assert (0 < Dt.minutes 2) as Hs1 by reflexivity.
  assert (0 < Dt.minutes 2 / 8) as Hs2 by reflexivity.
  unfold defineTripPoints, built_trip_points. run.
  destruct (_debug o =? 2);
    repeat (rewrite enumerateTripPoints_closed_form by done; run);
    reflexivity.
Qed.

Lemma built_trip_points_other (o : RightLight) (m : string) :
  m ∉ mode_names -> built_trip_points o !! m = trip_points o !! m.
Proof.
  unfold mode_names. intros Hm.
  repeat (apply not_elem_of_cons in Hm as [? Hm]).
  unfold built_trip_points. cbv zeta.
  by rewrite !lookup_insert_ne by done.
Qed.

Lemma _getNow_spec (env : Env) (o : RightLight) (h : Hass) :
  exists o' : RightLight,
    _getNow env (MkStore o h) = Some (Ok tt, MkStore o' h) /\
    same_settings o o' /\
    _currSched o' = _currSched o /\
    _mode o' = _mode o /\
    now o' = dt_now env /\
    (forall m : string, m ∉ mode_names ->
       trip_points o' !! m = trip_points o !! m) /\
    (today o = Some (date_today env) -> trip_points o' = trip_points o).
Proof.
  unfold _getNow. run.
  destruct (bool_decide (Some (date_today env) = today o)) eqn:Hd;
    cbn [negb]; run.
  - eexists. split; [reflexivity |]. project. by repeat split.
  - rewrite defineTripPoints_spec.
    eexists. split; [reflexivity |]. project.
    repeat split; try done.
    + intros m Hm. rewrite built_trip_points_other by done. by project.
    + intros Ht. apply bool_decide_eq_false in Hd. congruence.
Qed.

(** ** [turn_on], piece by piece *)

Lemma turn_on_prologue (env : Env) (kw : kwargs) (st : Store) :
  exists (o : RightLight) (h : Hass),
    turn_on env kw st = turn_on_body env kw (MkStore o h) /\
    after_prologue env kw st o h.
Proof.
  destruct st as [o0 h0]. unfold turn_on, after_prologue, arg_nocancel.
  destruct (default false (kw_nocancel kw)); cbn [negb].
  - run.
    destruct (_getNow_spec env o0 h0)
      as (o1 & -> & Hset & Hcs & Hmode & Hnow & Htp & Htp').
    run. eexists _, _. split; [reflexivity |].
    unfold same_settings in *. project.
    destruct Hset as (? & ? & ? & ? & ? & ? & ?). by repeat split.
  - unfold bind at 1. rewrite _cancelSched_spec. project.
    unfold bind at 1.
    destruct (_getNow_spec env (set_currSched [] o0)
                (MkHass (calls h0) (cancel_tasks (_currSched o0) (tasks h0))))
      as (o1 & -> & Hset & Hcs & Hmode & Hnow & Htp & Htp').
    run. eexists _, _. split; [reflexivity |].
    unfold same_settings in *. project.
    destruct Hset as (? & ? & ? & ? & ? & ? & ?). by repeat split.
Qed.

Lemma turn_on_body_outcome (env : Env) (kw : kwargs) (o : RightLight)
    (h : Hass) :
  exists (r : result unit) (st' : Store),
    turn_on_body env kw (MkStore o h) = Some (r, st') /\
    body_outcome env kw o h r st'.
Proof.
  unfold turn_on_body. run.
  destruct (Z.eqb_spec (_brightness o) 0) as [Hb | Hb].
  { unfold disable_and_turn_off. unfold bind at 1.
    rewrite _cancelSched_spec. run.
    eexists _, _. split; [reflexivity |]. by apply body_off. }
  destruct (trip_points o !! _mode o) as [tp |] eqn:Htp.
  2: { eexists _, _. split; [reflexivity |]. by apply body_unknown_mode. }
  destruct (scan tp (now o)) as [next |] eqn:Hscan.
  2: { eexists _, _. split; [reflexivity |]. by eapply body_raise. }
  destruct (py_index tp (Z.of_nat next - 1)) as [kp_prev | e] eqn:Hprev.
  2: { eexists _, _. split; [reflexivity |]. by eapply body_raise. }
  destruct (py_index tp (Z.of_nat next)) as [kp_next | e] eqn:Hnext.
  2: { eexists _, _. split; [reflexivity |]. by eapply body_raise. }
  destruct (time_ratio (now o) (timestamp kp_prev) (timestamp kp_next))
    as [ratio | e] eqn:Hratio.
  2: { eexists _, _. split; [reflexivity |]. by eapply body_raise. }
  pose (b := Bracket next kp_prev kp_next ratio
               (Dt.seconds (timestamp kp_next - now o))).
  assert (bracket_of tp (now o) b) as Hb' by (by repeat split).
  destruct (bool_decide (_mode o = "Normal")) eqn:Hm.
  - apply bool_decide_eq_true in Hm.
    unfold turn_on_normal. run.
    destruct (derive o (kp_value kp_prev)) as [d_prev | e] eqn:Hdp.
    2: { eexists _, _. split; [reflexivity |]. by eapply body_raise. }
    destruct (derive o (kp_value kp_next)) as [d_next | e] eqn:Hdn.
    2: { eexists _, _. split; [reflexivity |]. by eapply body_raise. }
    eexists _, _. split; [reflexivity |].
    rewrite length_app. simpl length.
    replace (length (tasks h) + 1)%nat with (S (length (tasks h))) by lia.
    rewrite <- !app_assoc. simpl app.
    by apply (body_normal env kw o h tp b d_prev d_next).
  - apply bool_decide_eq_false in Hm.
    unfold turn_on_rgb. run.
    destruct (now_rgb (kp_value kp_prev) (kp_value kp_next) ratio)
      as [rgb | e] eqn:Hrgb.
    2: { eexists _, _. split; [reflexivity |]. by eapply body_raise. }
    eexists _, _. split; [reflexivity |].
    rewrite length_app. simpl length.
    replace (length (tasks h) + 1)%nat with (S (length (tasks h))) by lia.
    rewrite <- !app_assoc. simpl app.
    by apply (body_rgb env kw o h tp b rgb).
Qed.

(** Every call of [turn_on] returns, and its outcome is one of the cases of
    [body_outcome] on the store its prologue leaves. *)
Lemma turn_on_outcome (env : Env) (kw : kwargs) (st : Store) :
  exists (o : RightLight) (h : Hass) (r : result unit) (st' : Store),
    after_prologue env kw st o h /\
    turn_on env kw st = Some (r, st') /\
    body_outcome env kw o h r st'.
Proof.
  destruct (turn_on_prologue env kw st) as (o & h & Heq & Hpro).
  destruct (turn_on_body_outcome env kw o h) as (r & st' & Hrun & Hout).
  exists o, h, r, st'. rewrite Heq. split; [done | split; done].
Qed.

(** ** Unknown modes *)

(** C3, as the code has it.  For a mode name that no curve is stored under
    and a non-zero brightness, [turn_on] raises [KeyError] for that name and
    makes no service call.  The pending collection is cancelled and emptied
    first unless [nocancel] is set; only with [nocancel] is it left as it
    was. *)
Theorem turn_on_unknown_mode (env : Env) (kw : kwargs) (st : Store) :
  arg_mode kw ∉ mode_names ->
  trip_points (self st) !! arg_mode kw = None ->
  arg_brightness kw <> 0 ->
  exists st' : Store,
    turn_on env kw st = Some (Raise (KeyError (arg_mode kw)), st') /\
    calls (hass st') = calls (hass st) /\
    _currSched (self st') =
      (if arg_nocancel kw then _currSched (self st) else []) /\
    tasks (hass st') =
      (if arg_nocancel kw then tasks (hass st)
       else cancel_tasks (_currSched (self st)) (tasks (hass st))).
Proof.
  intros Hnames Hnone Hbr.
  destruct (turn_on_outcome env kw st) as (o & h & r & st' & Hpro & Hrun & Hout).
  destruct Hpro as (Hh & Hcs & Hmode & Hb & _ & _ & _ & Htp & _).
  assert (trip_points o !! _mode o = None) as Hlook.
  { rewrite Hmode, Htp by done. done. }
  destruct Hout as [H0 | _ _ | e tp _ Htp' | tp ? ? ? _ _ Htp' | tp ? ? _ _ Htp'];
    try congruence.
  exists (MkStore o h). rewrite Hrun, Hmode. split; [done |]. project.
  rewrite Hcs, Hh. by destruct (arg_nocancel kw).
Qed.

Lemma turn_on_unknown_mode_witness :
  exists st' : Store,
    turn_on (Demo.env_at Dt.SECOND) (Demo.mode_kw "Foo") Demo.blank
      = Some (Raise (KeyError (arg_mode (Demo.mode_kw "Foo"))), st') /\
    calls (hass st') = calls (hass Demo.blank) /\
    _currSched (self st') =
      (if arg_nocancel (Demo.mode_kw "Foo")
       then _currSched (self Demo.blank) else []) /\
    tasks (hass st') =
      (if arg_nocancel (Demo.mode_kw "Foo") then tasks (hass Demo.blank)
       else cancel_tasks (_currSched (self Demo.blank))
              (tasks (hass Demo.blank))).
Proof.
  apply (turn_on_unknown_mode (Demo.env_at Dt.SECOND)
           (Demo.mode_kw "Foo") Demo.blank).
  - vm_compute. intros H. by repeat (apply elem_of_cons in H as [H | H];
      [discriminate |]); apply elem_of_nil in H.
  - reflexivity.
  - vm_compute. discriminate.
Defined.

(** C3, as stated, fails where a schedule is pending: on the lamp lit at
    midnight, whose collection holds the handles 0 and 1, [turn_on] with the
    unknown mode "Foo" raises and calls nothing, but leaves the collection
    empty. *)
Lemma unknown_mode_clears_schedule :
  trip_points (self Demo.lit) !! "Foo" = None /\
  _currSched (self Demo.lit) = [0%nat; 1%nat] /\
  ~ fails_leaving_schedule (Demo.env_at Dt.SECOND)
      (Demo.mode_kw "Foo") Demo.lit.
Proof.
  split; [vm_compute; reflexivity |].
  split; [vm_compute; reflexivity |].
  intros (e & st' & Hrun & _ & Hcs).
  assert ((fun r => _currSched (self (snd r))) <$>
            turn_on (Demo.env_at Dt.SECOND) (Demo.mode_kw "Foo")
              Demo.lit = Some []) as Hcomp by (vm_compute; reflexivity).
  rewrite Hrun in Hcomp. clear Hrun. cbn [fmap option_fmap option_map snd] in Hcomp.
  injection Hcomp as Hnil. rewrite Hnil in Hcs.
  assert (_currSched (self Demo.lit) = [0%nat; 1%nat]) as Hlit
    by (vm_compute; reflexivity).
  rewrite Hlit in Hcs. discriminate Hcs.
Qed.

(** ** One chain at a time *)

Lemma after_cycle_tasks (o : RightLight) (h : Hass) (c d : service_call)
    (time_rem rand : Z) (kw : kwargs) :
  tasks (hass (after_cycle o h c d time_rem rand kw)) =
  tasks h ++ [Task rand (async_call d) false;
              Task (time_rem + 1) (call_turn_on kw) false].
Proof. done. Qed.

Lemma after_cycle_currSched (o : RightLight) (h : Hass) (c d : service_call)
    (time_rem rand : Z) (kw : kwargs) :
  _currSched (self (after_cycle o h c d time_rem rand kw)) =
  _currSched o ++ [length (tasks h); S (length (tasks h))].
Proof. done. Qed.

Lemma after_cycle_calls (o : RightLight) (h : Hass) (c d : service_call)
    (time_rem rand : Z) (kw : kwargs) :
  calls (hass (after_cycle o h c d time_rem rand kw)) = calls h ++ [c].
Proof. done. Qed.

(** A call without [nocancel] cancels every handle that was pending and
    leaves in the collection only handles of tasks it created itself. *)
Lemma turn_on_fresh_schedule (env : Env) (kw : kwargs) (st : Store) :
  arg_nocancel kw = false ->
  pending_valid st ->
  exists (r : result unit) (st' : Store),
    turn_on env kw st = Some (r, st') /\
    (forall ret_ : handle,
        ret_ ∈ _currSched (self st) -> is_cancelled st' ret_) /\
    (forall ret_ : handle,
        ret_ ∈ _currSched (self st') -> created_since st st' ret_) /\
    pending_valid st'.
Proof.
  intros Hnc Hvalid.
  destruct (turn_on_outcome env kw st) as (o & h & r & st' & Hpro & Hrun & Hout).
  destruct Hpro as (Hh & Hcs & _). rewrite Hnc in Hh, Hcs.
  exists r, st'. split; [done |].
  assert (length (tasks h) = length (tasks (hass st))) as Hlen.
  { rewrite Hh. cbn [tasks]. apply length_cancel_tasks. }
  assert (forall ret_ : handle, ret_ ∈ _currSched (self st) ->
            exists t : task, tasks h !! ret_ = Some t /\ cancelled t = true)
    as Hcancelled.
  { intros ret_ Hin.
    unfold pending_valid in Hvalid. rewrite Forall_forall in Hvalid.
    destruct (lookup_lt_is_Some_2 _ _ (Hvalid ret_ Hin)) as [t Ht].
    destruct (cancel_tasks_lookup (_currSched (self st)) _ _ _ Ht)
      as (t' & Ht' & _ & _ & Hc & _).
    exists t'. rewrite Hh. cbn [tasks]. split; [done |]. apply Hc. by right. }
  assert (forall (new : list task) (ret_ : handle),
            ret_ ∈ _currSched (self st) ->
            exists t : task,
              (tasks h ++ new) !! ret_ = Some t /\ cancelled t = true)
    as Hkept.
  { intros new ret_ Hin. destruct (Hcancelled ret_ Hin) as (t & Ht & Hc).
    exists t. split; [| done]. by apply lookup_app_l_Some. }
  unfold is_cancelled, created_since, pending_valid.
  destruct Hout as [H0 | ? ? | e tp ? ? | tp b dp dn ? ? ? ? ? ?
                    | tp b rgb ? ? ? ? ?].
  - project. rewrite Hcs. cbn [cancel_tasks foldl].
    split; [done | split; [| by apply Forall_nil]].
    intros ret_ Hin. by apply elem_of_nil in Hin.
  - project. rewrite Hcs.
    split; [done | split; [| by apply Forall_nil]].
    intros ret_ Hin. by apply elem_of_nil in Hin.
  - project. rewrite Hcs.
    split; [done | split; [| by apply Forall_nil]].
    intros ret_ Hin. by apply elem_of_nil in Hin.
  - rewrite after_cycle_tasks, after_cycle_currSched, Hcs, length_app.
    rewrite <- Hlen. cbn [app length].
    split; [apply Hkept | split].
    + intros ret_ Hin.
      apply elem_of_cons in Hin as [-> | Hin]; [lia |].
      apply elem_of_cons in Hin as [-> | Hin]; [lia |].
      by apply elem_of_nil in Hin.
    + apply Forall_cons_2; [lia |]. apply Forall_cons_2; [lia |].
      apply Forall_nil_2.
  - rewrite after_cycle_tasks, after_cycle_currSched, Hcs, length_app.
    rewrite <- Hlen. cbn [app length].
    split; [apply Hkept | split].
    + intros ret_ Hin.
      apply elem_of_cons in Hin as [-> | Hin]; [lia |].
      apply elem_of_cons in Hin as [-> | Hin]; [lia |].
      by apply elem_of_nil in Hin.
    + apply Forall_cons_2; [lia |]. apply Forall_cons_2; [lia |].
      apply Forall_nil_2.
Qed.

Lemma turn_on_many_valid (cs : list (Env * kwargs)) :
  forall st : Store,
    Forall (fun c => arg_nocancel (snd c) = false) cs ->
    pending_valid st ->
    exists st' : Store, turn_on_many cs st = Some st' /\ pending_valid st'.
Proof.
  induction cs as [| c cs IH]; intros st Hall Hvalid.
  - by exists st.
  - apply Forall_cons in Hall as [Hc Hall].
    destruct (turn_on_fresh_schedule (fst c) (snd c) st Hc Hvalid)
      as (r & st1 & Hrun & _ & _ & Hvalid1).
    destruct (IH st1 Hall Hvalid1) as (st' & Hmany & Hvalid').
    exists st'. cbn [turn_on_many]. by rewrite Hrun.
Qed.

Lemma turn_on_many_app (cs1 cs2 : list (Env * kwargs)) :
  forall st st1 : Store,
    turn_on_many cs1 st = Some st1 ->
    turn_on_many (cs1 ++ cs2) st = turn_on_many cs2 st1.
Proof.
  induction cs1 as [| c cs1 IH]; intros st st1 Hrun.
  - cbn in Hrun. by injection Hrun as ->.
  - cbn [turn_on_many app] in *.
    destruct (turn_on (fst c) (snd c) st) as [[r st2] |]; [| done].
    by apply IH.
Qed.

(** C7.  Every [turn_on] without [nocancel] cancels each handle that was
    pending and empties the collection before it arms anything, so after
    any number of consecutive such calls the collection holds only handles
    of tasks created by the most recent call. *)
Theorem at_most_one_chain (cs : list (Env * kwargs)) (env : Env)
    (kw : kwargs) (st : Store) :
  Forall (fun c => arg_nocancel (snd c) = false) cs ->
  arg_nocancel kw = false ->
  pending_valid st ->
  exists (st_prev : Store) (r : result unit) (st' : Store),
    turn_on_many cs st = Some st_prev /\
    turn_on env kw st_prev = Some (r, st') /\
    turn_on_many (cs ++ [(env, kw)]) st = Some st' /\
    (forall ret_ : handle,
        ret_ ∈ _currSched (self st_prev) -> is_cancelled st' ret_) /\
    (forall ret_ : handle,
        ret_ ∈ _currSched (self st') -> created_since st_prev st' ret_).
Proof.
  intros Hall Hnc Hvalid.
  destruct (turn_on_many_valid cs st Hall Hvalid) as (st_prev & Hmany & Hvp).
  destruct (turn_on_fresh_schedule env kw st_prev Hnc Hvp)
    as (r & st' & Hrun & Hcancel & Hfresh & _).
  exists st_prev, r, st'.
  split; [done |]. split; [done |]. split; [| split; done].
  rewrite (turn_on_many_app cs [(env, kw)] st st_prev Hmany).
  cbn [turn_on_many fst snd]. by rewrite Hrun.
Qed.

Lemma at_most_one_chain_witness :
  exists (st_prev : Store) (r : result unit) (st' : Store),
    turn_on_many [(Demo.env_at 0, Demo.mode_kw "Normal")] Demo.fresh
      = Some st_prev /\
    turn_on (Demo.env_at Dt.SECOND) (Demo.mode_kw "Vivid") st_prev
      = Some (r, st') /\
    turn_on_many
      ([(Demo.env_at 0, Demo.mode_kw "Normal")] ++
       [(Demo.env_at Dt.SECOND, Demo.mode_kw "Vivid")])
      Demo.fresh = Some st' /\
    (forall ret_ : handle,
        ret_ ∈ _currSched (self st_prev) -> is_cancelled st' ret_) /\
    (forall ret_ : handle,
        ret_ ∈ _currSched (self st') -> created_since st_prev st' ret_).
Proof.
  apply (at_most_one_chain [(Demo.env_at 0, Demo.mode_kw "Normal")]
           (Demo.env_at Dt.SECOND) (Demo.mode_kw "Vivid")
           Demo.fresh).
  - apply Forall_cons_2; [reflexivity | apply Forall_nil_2].
  - reflexivity.
  - unfold pending_valid.
    replace (_currSched (self Demo.fresh)) with (@nil nat)
      by (vm_compute; reflexivity).
    apply Forall_nil_2.
Defined.

(** ** Runs of the concrete installation *)

Lemma after_succeeds (env : Env) (kw : kwargs) (st : Store) :
  Demo.succeeds env kw st = true ->
  turn_on env kw st = Some (Ok tt, Demo.after env kw st).
Proof.
  unfold Demo.succeeds, Demo.after.
  destruct (turn_on env kw st) as [[[[] | e] st'] |]; done.
Qed.

(** ** A cycle that runs to its end *)

Lemma after_prologue_calls (env : Env) (kw : kwargs) (st : Store)
    (o : RightLight) (h : Hass) :
  after_prologue env kw st o h ->
  calls h = calls (hass st) /\
  length (tasks h) = length (tasks (hass st)) /\
  _entity o = _entity (self st) /\
  arg_transition o kw = arg_transition (self st) kw.
Proof.
  intros (Hh & _ & _ & _ & _ & _ & Hset & _).
  destruct Hset as (He & _ & _ & _ & _ & Hon & _).
  unfold arg_transition. rewrite Hon, Hh.
  destruct (arg_nocancel kw); cbn [calls tasks];
    by rewrite ?length_cancel_tasks.
Qed.

Lemma turn_on_normal_success (env : Env) (kw : kwargs) (st st' : Store) :
  turn_on env kw st = Some (Ok tt, st') ->
  arg_mode kw = "Normal" ->
  arg_brightness kw <> 0 ->
  exists (o : RightLight) (h : Hass) (tp : list keypoint) (b : bracket)
         (d_prev d_next : float * float),
    after_prologue env kw st o h /\
    trip_points o !! "Normal" = Some tp /\
    bracket_of tp (dt_now env) b /\
    derive o (kp_value (b_kp_prev b)) = Ok d_prev /\
    derive o (kp_value (b_kp_next b)) = Ok d_next /\
    st' = after_cycle o h
            (normal_immediate o kw d_prev d_next (b_ratio b))
            (normal_drift o d_next (b_time_rem b)) (b_time_rem b)
            (random_randrange_1_5 env) (normal_rearm o).
Proof.
  intros Hrun Hmode Hbr.
  destruct (turn_on_outcome env kw st)
    as (o & h & r & st1 & Hpro & Hrun' & Hout).
  rewrite Hrun in Hrun'. injection Hrun' as <- <-.
  pose proof Hpro as (_ & _ & Hm & Hb & _ & Hnow & _).
  rewrite Hmode in Hm.
  inversion Hout as [H0 | | | tp b dp dn _ _ Htp Hbk Hdp Hdn
                     | tp b rgb _ Hne]; subst.
  - congruence.
  - rewrite Hm in Htp. rewrite Hnow in Hbk. by exists o, h, tp, b, dp, dn.
  - congruence.
Qed.

Lemma turn_on_rgb_success (env : Env) (kw : kwargs) (st st' : Store) :
  turn_on env kw st = Some (Ok tt, st') ->
  arg_mode kw <> "Normal" ->
  arg_brightness kw <> 0 ->
  exists (o : RightLight) (h : Hass) (tp : list keypoint) (b : bracket)
         (rgb : list num),
    after_prologue env kw st o h /\
    trip_points o !! arg_mode kw = Some tp /\
    bracket_of tp (dt_now env) b /\
    now_rgb (kp_value (b_kp_prev b)) (kp_value (b_kp_next b)) (b_ratio b)
      = Ok rgb /\
    st' = after_cycle o h
            (rgb_immediate o kw rgb)
            (rgb_drift o (kp_value (b_kp_next b)) (b_time_rem b))
            (b_time_rem b) (random_randrange_1_5 env) (rgb_rearm o).
Proof.
  intros Hrun Hmode Hbr.
  destruct (turn_on_outcome env kw st)
    as (o & h & r & st1 & Hpro & Hrun' & Hout).
  rewrite Hrun in Hrun'. injection Hrun' as <- <-.
  pose proof Hpro as (_ & _ & Hm & Hb & _ & Hnow & _).
  inversion Hout as [H0 | | | tp b dp dn _ Heq
                     | tp b rgb _ _ Htp Hbk Hrgb]; subst.
  - congruence.
  - congruence.
  - rewrite Hm in Htp. rewrite Hnow in Hbk. by exists o, h, tp, b, rgb.
Qed.




(** ** The Normal mode *)



(** ** The handles of a cycle *)

Lemma turn_on_cycle (env : Env) (kw : kwargs) (st st' : Store) :
  turn_on env kw st = Some (Ok tt, st') ->
  arg_brightness kw <> 0 ->
  exists (o : RightLight) (h : Hass) (tp : list keypoint) (b : bracket)
         (immediate drift : service_call) (rearm : kwargs),
    after_prologue env kw st o h /\
    trip_points o !! arg_mode kw = Some tp /\
    bracket_of tp (dt_now env) b /\
    st' = after_cycle o h immediate drift (b_time_rem b)
            (random_randrange_1_5 env) rearm /\
    (arg_mode kw = "Normal" /\ rearm = normal_rearm o \/
     arg_mode kw <> "Normal" /\ rearm = rgb_rearm o).
Proof.
  intros Hrun Hbr.
  destruct (decide (arg_mode kw = "Normal")) as [Hm | Hm].
  - destruct (turn_on_normal_success env kw st st' Hrun Hm Hbr)
      as (o & h & tp & b & dp & dn & Hpro & Htp & Hbk & _ & _ & ->).
    rewrite <- Hm in Htp.
    eexists o, h, tp, b, _, _, _.
    repeat (split; [done |]). left. by split.
  - destruct (turn_on_rgb_success env kw st st' Hrun Hm Hbr)
      as (o & h & tp & b & rgb & Hpro & Htp & Hbk & _ & ->).
    eexists o, h, tp, b, _, _, _.
    repeat (split; [done |]). right. by split.
Qed.

(** C8, as the code has it.  A cycle that runs to its end makes the
    immediate set as a direct call and creates two tasks, the
    drift-correction set and the re-arm; the handles of these two, and only
    these, are appended to the pending collection. *)
Theorem cycle_registers_two_handles (env : Env) (kw : kwargs)
    (st st' : Store) :
  turn_on env kw st = Some (Ok tt, st') ->
  arg_brightness kw <> 0 ->
  exists (immediate drift : service_call) (rearm : kwargs)
         (delay_drift delay_rearm : Z),
    let n := length (tasks (hass st)) in
    calls (hass st') = calls (hass st) ++ [immediate] /\
    length (tasks (hass st')) = S (S n) /\
    tasks (hass st') !! n = Some (Task delay_drift (async_call drift) false) /\
    tasks (hass st') !! S n =
      Some (Task delay_rearm (call_turn_on rearm) false) /\
    _currSched (self st') =
      (if arg_nocancel kw then _currSched (self st) else []) ++ [n; S n].
Proof.
  intros Hrun Hbr.
  destruct (turn_on_cycle env kw st st' Hrun Hbr)
    as (o & h & tp & b & imm & drift & rearm & Hpro & _ & _ & -> & _).
  destruct (after_prologue_calls _ _ _ _ _ Hpro) as (Hc & Hlen & _ & _).
  destruct Hpro as (_ & Hcs & _).
  exists imm, drift, rearm, (random_randrange_1_5 env), (b_time_rem b + 1).
  cbv zeta.
  rewrite after_cycle_calls, after_cycle_tasks, after_cycle_currSched.
  rewrite Hc, Hcs, <- Hlen.
  split; [done |]. split; [rewrite length_app; simpl; lia |].
  split; [| split; [| done]].
  - rewrite lookup_app_r by lia. by rewrite Nat.sub_diag.
  - rewrite lookup_app_r by lia.
    by replace (S (length (tasks h)) - length (tasks h))%nat with 1%nat by lia.
Qed.

Lemma cycle_registers_two_handles_witness :
  exists (immediate drift : service_call) (rearm : kwargs)
         (delay_drift delay_rearm : Z),
    let n := length (tasks (hass Demo.fresh)) in
    calls (hass (Demo.after (Demo.env_at Demo.noon)
                   Demo.boosted_kw Demo.fresh)) =
      calls (hass Demo.fresh) ++ [immediate] /\
    length (tasks (hass (Demo.after (Demo.env_at Demo.noon)
                           Demo.boosted_kw Demo.fresh))) = S (S n) /\
    tasks (hass (Demo.after (Demo.env_at Demo.noon)
                   Demo.boosted_kw Demo.fresh)) !! n =
      Some (Task delay_drift (async_call drift) false) /\
    tasks (hass (Demo.after (Demo.env_at Demo.noon)
                   Demo.boosted_kw Demo.fresh)) !! S n =
      Some (Task delay_rearm (call_turn_on rearm) false) /\
    _currSched (self (Demo.after (Demo.env_at Demo.noon)
                        Demo.boosted_kw Demo.fresh)) =
      (if arg_nocancel Demo.boosted_kw
       then _currSched (self Demo.fresh) else []) ++ [n; S n].
Proof.
  apply (cycle_registers_two_handles (Demo.env_at Demo.noon)
           Demo.boosted_kw Demo.fresh).
  - apply after_succeeds. vm_compute. reflexivity.
  - vm_compute. discriminate.
Defined.

(** C8, as stated, fails on the lamp lit at midnight: the call made one
    service call and left two handles, the snap-to-next set and the re-arm;
    the immediate set is the target of neither. *)
Lemma immediate_set_not_registered :
  turn_on (Demo.env_at 0) (Kwargs None None None None None) Demo.fresh
    = Some (Ok tt, Demo.lit) /\
  calls (hass Demo.lit) =
    [light_turn_on "light.lamp" (Flt 150) (kelvin (Flt 2139.7058823529414))
       (Flt 0.2)] /\
  tasks (hass Demo.lit) =
    [Task 2
       (async_call
          (light_turn_on "light.lamp" (Flt 150)
             (kelvin (Flt 2139.7058823529414)) (Int 0)))
       false;
     Task 1 (call_turn_on (Kwargs (Some true) None (Some 255) (Some 0) None))
       false] /\
  _currSched (self Demo.lit) = [0%nat; 1%nat] /\
  ~ registers_immediate Demo.fresh Demo.lit.
Proof.
  assert (calls (hass Demo.lit) =
          [light_turn_on "light.lamp" (Flt 150)
             (kelvin (Flt 2139.7058823529414)) (Flt 0.2)]) as Hcalls
    by (vm_compute; reflexivity).
  assert (tasks (hass Demo.lit) =
          [Task 2
             (async_call
                (light_turn_on "light.lamp" (Flt 150)
                   (kelvin (Flt 2139.7058823529414)) (Int 0)))
             false;
           Task 1
             (call_turn_on (Kwargs (Some true) None (Some 255) (Some 0) None))
             false]) as Htasks
    by (vm_compute; reflexivity).
  assert (_currSched (self Demo.lit) = [0%nat; 1%nat]) as Hcs
    by (vm_compute; reflexivity).
  assert (calls (hass Demo.fresh) = []) as Hfresh
    by (vm_compute; reflexivity).
  split; [apply after_succeeds; vm_compute; reflexivity |].
  repeat (split; [done |]).
  intros (c & ret_ & t & Hc & Hin & Ht & Htar).
  rewrite Hcalls, Hfresh in Hc. injection Hc as <-.
  rewrite Hcs in Hin. rewrite Htasks in Ht.
  apply elem_of_cons in Hin as [-> | Hin].
  { injection Ht as <-. discriminate Htar. }
  apply elem_of_cons in Hin as [-> | Hin].
  { injection Ht as <-. discriminate Htar. }
  by apply elem_of_nil in Hin.
Qed.

(** ** The re-arm *)




(** ** The compensation of the colour temperature *)

Lemma derive_compensated (o : RightLight) (v : value) (d : float * float) :
  derive o v = Ok d ->
  _ct_high o = 5000 ->
  _ct_scalar o = 0.35%float ->
  exists kelvin_cap brightness_cap : Z,
    py_index v 0 = Ok kelvin_cap /\
    py_index v 1 = Ok brightness_cap /\
    d = ((Z2F brightness_cap / Z2F 255
          * Z2F (_brightness o + _brightness_override o))%float,
         compensated_kelvin kelvin_cap brightness_cap).
Proof.
  unfold derive, compensated_kelvin. intros H Hhigh Hscalar.
  destruct (py_index v 1) as [cap |]; [| done].
  destruct (py_index v 0) as [k |]; [| done].
  injection H as <-. rewrite Hhigh, Hscalar. by exists k, cap.
Qed.

(** C4.  In Normal mode, with [ct_high = 5000] and [ct_scalar = 0.35], the
    colour temperature derived at each of the two bracketing key points is
    [kelvin_cap - (5000 - kelvin_cap) * (1 - brightness_cap / 255) * 0.35],
    and the commands of the cycle are computed from these.  On the curve
    with (2500 K, 150) at midnight and (2500 K, 120) at sunrise - 60 min,
    [turn_on(brightness=255, brightness_override=0)] exactly at midnight
    commands the brightness [150 / 255 * 255 = 150] and the kelvin of the
    formula at (2500, 150). *)
Theorem normal_kelvin_compensation :
  (forall (env : Env) (kw : kwargs) (st st' : Store),
      turn_on env kw st = Some (Ok tt, st') ->
      arg_mode kw = "Normal" ->
      arg_brightness kw <> 0 ->
      _ct_high (self st) = 5000 ->
      _ct_scalar (self st) = 0.35%float ->
      exists (o : RightLight) (h : Hass) (tp : list keypoint) (b : bracket)
             (k_prev cap_prev k_next cap_next : Z)
             (d_prev d_next : float * float),
        after_prologue env kw st o h /\
        trip_points o !! "Normal" = Some tp /\
        bracket_of tp (dt_now env) b /\
        py_index (kp_value (b_kp_prev b)) 0 = Ok k_prev /\
        py_index (kp_value (b_kp_prev b)) 1 = Ok cap_prev /\
        py_index (kp_value (b_kp_next b)) 0 = Ok k_next /\
        py_index (kp_value (b_kp_next b)) 1 = Ok cap_next /\
        d_prev =
          ((Z2F cap_prev / Z2F 255
            * Z2F (arg_brightness kw + arg_brightness_override kw))%float,
           compensated_kelvin k_prev cap_prev) /\
        d_next =
          ((Z2F cap_next / Z2F 255
            * Z2F (arg_brightness kw + arg_brightness_override kw))%float,
           compensated_kelvin k_next cap_next) /\
        st' = after_cycle o h
                (normal_immediate o kw d_prev d_next (b_ratio b))
                (normal_drift o d_next (b_time_rem b)) (b_time_rem b)
                (random_randrange_1_5 env) (normal_rearm o)) /\
  Demo.curve "Normal" !! 0%nat = Some (Demo.midnight, [2500; 150]) /\
  Demo.curve "Normal" !! 1%nat =
    Some (Demo.midnight + 5 * 3600 * Dt.SECOND, [2500; 120]) /\
  turn_on (Demo.env_at 0) Demo.plain_kw Demo.fresh =
    Some (Ok tt, Demo.after (Demo.env_at 0) Demo.plain_kw
                   Demo.fresh) /\
  calls (hass (Demo.after (Demo.env_at 0) Demo.plain_kw
                 Demo.fresh)) =
    [light_turn_on "light.lamp"
       (Flt (Z2F 150 / Z2F 255 * Z2F (255 + 0)))
       (kelvin (Flt (compensated_kelvin 2500 150))) (Flt 0.2)] /\
  (Z2F 150 / Z2F 255 * Z2F (255 + 0))%float = 150%float.
Proof.
  split.
  - intros env kw st st' Hrun Hmode Hbr Hhigh Hscalar.
    destruct (turn_on_normal_success env kw st st' Hrun Hmode Hbr)
      as (o & h & tp & b & dp & dn & Hpro & Htp & Hbk & Hdp & Hdn & ->).
    pose proof Hpro as (_ & _ & _ & Hb & Hov & _ & Hset & _).
    destruct Hset as (_ & _ & Hh & Hs & _).
    rewrite <- Hh in Hhigh. rewrite <- Hs in Hscalar.
    destruct (derive_compensated o _ _ Hdp Hhigh Hscalar)
      as (kp & cp & Hkp & Hcp & ->).
    destruct (derive_compensated o _ _ Hdn Hhigh Hscalar)
      as (kn & cn & Hkn & Hcn & ->).
    rewrite Hb, Hov.
    exists o, h, tp, b, kp, cp, kn, cn. eexists _, _.
    repeat (split; [done |]). done.
  - split; [vm_compute; reflexivity |].
    split; [vm_compute; reflexivity |].
    split; [apply after_succeeds; vm_compute; reflexivity |].
    split; vm_compute; reflexivity.
Qed.

Lemma normal_kelvin_compensation_witness :
  exists (o : RightLight) (h : Hass) (tp : list keypoint) (b : bracket)
         (k_prev cap_prev k_next cap_next : Z) (d_prev d_next : float * float),
    after_prologue (Demo.env_at Demo.noon) Demo.plain_kw
      Demo.fresh o h /\
    trip_points o !! "Normal" = Some tp /\
    bracket_of tp (dt_now (Demo.env_at Demo.noon)) b /\
    py_index (kp_value (b_kp_prev b)) 0 = Ok k_prev /\
    py_index (kp_value (b_kp_prev b)) 1 = Ok cap_prev /\
    py_index (kp_value (b_kp_next b)) 0 = Ok k_next /\
    py_index (kp_value (b_kp_next b)) 1 = Ok cap_next /\
    d_prev =
      ((Z2F cap_prev / Z2F 255
        * Z2F (arg_brightness Demo.plain_kw
               + arg_brightness_override Demo.plain_kw))%float,
       compensated_kelvin k_prev cap_prev) /\
    d_next =
      ((Z2F cap_next / Z2F 255
        * Z2F (arg_brightness Demo.plain_kw
               + arg_brightness_override Demo.plain_kw))%float,
       compensated_kelvin k_next cap_next) /\
    Demo.after (Demo.env_at Demo.noon) Demo.plain_kw
      Demo.fresh =
    after_cycle o h
      (normal_immediate o Demo.plain_kw d_prev d_next (b_ratio b))
      (normal_drift o d_next (b_time_rem b)) (b_time_rem b)
      (random_randrange_1_5 (Demo.env_at Demo.noon)) (normal_rearm o).
Proof.
  apply (proj1 normal_kelvin_compensation (Demo.env_at Demo.noon)
           Demo.plain_kw Demo.fresh).
  - apply after_succeeds. vm_compute. reflexivity.
  - reflexivity.
  - vm_compute. discriminate.
  - reflexivity.
  - reflexivity.
Defined.

(** At midnight itself the scan stops at index 0, so [prev] is [-1], the
    last key point of the curve; on the Normal curve that key point carries
    the same (2500 K, 150) as the first one. *)
Lemma midnight_bracket_wraps :
  scan (Demo.curve "Normal") Demo.midnight = Some O /\
  py_index (Demo.curve "Normal") (Z.of_nat O - 1) =
    Ok (Demo.midnight + 86399 * Dt.SECOND, [2500; 150]).
Proof. split; vm_compute; reflexivity. Qed.

(** ** Past the last key point *)

Lemma py_index_total {A : Type} (l : list A) (i : Z) :
  0 <= i < Z.of_nat (length l) -> exists x : A, py_index l i = Ok x.
Proof.
  intros Hi.
  destruct (lookup_lt_is_Some_2 l (Z.to_nat i) ltac:(lia)) as [x Hx].
  exists x. rewrite <- (Z2Nat.id i) by lia. by apply py_index_nonneg.
Qed.

Lemma derive_total (o : RightLight) (v : value) :
  (2 <= length v)%nat -> exists d : float * float, derive o v = Ok d.
Proof.
  intros Hv. unfold derive.
  destruct (py_index_total v 1 ltac:(lia)) as [cap Hcap].
  destruct (py_index_total v 0 ltac:(lia)) as [k Hk].
  rewrite Hcap, Hk. by eexists.
Qed.

Lemma now_rgb_total (prev_rgb next_rgb : value) (ratio : float) :
  (3 <= length prev_rgb)%nat -> (3 <= length next_rgb)%nat ->
  exists rgb : list num, now_rgb prev_rgb next_rgb ratio = Ok rgb.
Proof.
  intros Hp Hn. unfold now_rgb.
  destruct (py_index_total prev_rgb 0 ltac:(lia)) as [p0 Hp0].
  destruct (py_index_total prev_rgb 1 ltac:(lia)) as [p1 Hp1].
  destruct (py_index_total prev_rgb 2 ltac:(lia)) as [p2 Hp2].
  destruct (py_index_total next_rgb 0 ltac:(lia)) as [n0 Hn0].
  destruct (py_index_total next_rgb 1 ltac:(lia)) as [n1 Hn1].
  destruct (py_index_total next_rgb 2 ltac:(lia)) as [n2 Hn2].
  rewrite Hp0, Hn0, Hp1, Hn1, Hp2, Hn2. by eexists.
Qed.

(** With a bracketing pair whose values are wide enough for the mode, the
    body of [turn_on] runs its cycle to the end. *)
Lemma turn_on_body_completes (env : Env) (kw : kwargs) (o : RightLight)
    (h : Hass) (tp : list keypoint) (b : bracket) :
  _brightness o <> 0 ->
  trip_points o !! _mode o = Some tp ->
  bracket_of tp (now o) b ->
  (value_width (_mode o) <= length (kp_value (b_kp_prev b)))%nat ->
  (value_width (_mode o) <= length (kp_value (b_kp_next b)))%nat ->
  exists (immediate drift : service_call) (rearm : kwargs),
    turn_on_body env kw (MkStore o h) =
    Some (Ok tt,
          after_cycle o h immediate drift (b_time_rem b)
            (random_randrange_1_5 env) rearm).
Proof.
  intros Hbr Htp (Hscan & Hprev & Hnext & Hratio & Hrem) Hwp Hwn.
  unfold turn_on_body. run.
  destruct (Z.eqb_spec (_brightness o) 0) as [? | _]; [done |].
  rewrite Htp, Hscan. run. rewrite Hprev, Hnext. run. rewrite Hratio.
  rewrite <- Hrem. unfold value_width in Hwp, Hwn.
  unfold after_cycle.
  destruct (decide (_mode o = "Normal")) as [Hm | Hm].
  - rewrite (bool_decide_eq_true_2 _ Hm).
    destruct (derive_total o _ Hwp) as [dp Hdp].
    destruct (derive_total o _ Hwn) as [dn Hdn].
    unfold turn_on_normal. run. rewrite Hdp, Hdn. run.
    rewrite length_app. cbn [length].
    replace (length (tasks h) + 1)%nat with (S (length (tasks h))) by lia.
    rewrite <- !app_assoc. cbn [app].
    by eexists _, _, _.
  - rewrite (bool_decide_eq_false_2 _ Hm).
    destruct (now_rgb_total _ _ (b_ratio b) Hwp Hwn) as [rgb Hrgb].
    unfold turn_on_rgb. run. rewrite Hrgb. run.
    rewrite length_app. cbn [length].
    replace (length (tasks h) + 1)%nat with (S (length (tasks h))) by lia.
    rewrite <- !app_assoc. cbn [app].
    by eexists _, _, _.
Qed.

(** When no key point is at or after [now], the scan leaves [next] at the
    last index, one below the length of the curve, and [prev] at the index
    before; nothing is raised for it.  On a curve already built for the
    day, with two last key points of different timestamps and values as
    wide as the mode reads, [turn_on] runs its cycle to the end and makes
    a service call. *)
Lemma turn_on_past_last_key_point (env : Env) (kw : kwargs) (st : Store)
    (tp : list keypoint) (kp_prev kp_next : keypoint) :
  today (self st) = Some (date_today env) ->
  trip_points (self st) !! arg_mode kw = Some tp ->
  arg_brightness kw <> 0 ->
  exhausted tp (dt_now env) ->
  (2 <= length tp)%nat ->
  tp !! (length tp - 2)%nat = Some kp_prev ->
  tp !! (length tp - 1)%nat = Some kp_next ->
  timestamp kp_next <> timestamp kp_prev ->
  (value_width (arg_mode kw) <= length (kp_value kp_prev))%nat ->
  (value_width (arg_mode kw) <= length (kp_value kp_next))%nat ->
  exists (b : bracket) (st' : Store) (immediate : service_call),
    scan tp (dt_now env) = Some (length tp - 1)%nat /\
    b_next b = (length tp - 1)%nat /\
    b_kp_prev b = kp_prev /\ b_kp_next b = kp_next /\
    bracket_of tp (dt_now env) b /\
    turn_on env kw st = Some (Ok tt, st') /\
    calls (hass st') = calls (hass st) ++ [immediate].
Proof.
  intros Htoday Htp Hbr Hex Hlen Hp Hn Hts Hwp Hwn.
  assert (scan tp (dt_now env) = Some (length tp - 1)%nat) as Hscan.
  { apply scan_exhausted; [| done]. intros ->. simpl in Hlen. lia. }
  pose (b := Bracket (length tp - 1) kp_prev kp_next
               (Z2F (dt_now env - timestamp kp_prev)
                / Z2F (timestamp kp_next - timestamp kp_prev))%float
               (Dt.seconds (timestamp kp_next - dt_now env))).
  assert (bracket_of tp (dt_now env) b) as Hbk.
  { unfold bracket_of, b. cbn [b_next b_kp_prev b_kp_next b_ratio b_time_rem].
    split; [done |]. split.
    { replace (length tp - 1)%nat with (S (length tp - 2)) by lia.
      by apply py_index_pred. }
    split; [by apply py_index_nonneg |]. split; [| done].
    unfold time_ratio.
    destruct (Z.eqb_spec (timestamp kp_next - timestamp kp_prev) 0);
      [lia | done]. }
  destruct (turn_on_prologue env kw st) as (o & h & Heq & Hpro).
  pose proof Hpro as (_ & _ & Hm & Hb & _ & Hnow & _ & _ & Hsame).
  destruct (after_prologue_calls _ _ _ _ _ Hpro) as (Hc & _).
  rewrite <- Hm in Hwp, Hwn. rewrite <- Hnow in Hbk.
  destruct (turn_on_body_completes env kw o h tp b) as (c & d & rearm & Hrun);
    try done.
  { by rewrite Hb. }
  { by rewrite Hm, (Hsame Htoday). }
  exists b, (after_cycle o h c d (b_time_rem b) (random_randrange_1_5 env)
               rearm), c.
  rewrite Hnow in Hbk. rewrite Heq, Hrun, after_cycle_calls, Hc.
  clear Hrun Heq. repeat (split; [done |]). done.
Qed.

Lemma turn_on_past_last_key_point_witness :
  exists (b : bracket) (st' : Store) (immediate : service_call),
    scan (Demo.curve "Vivid") (dt_now (Demo.env_at Demo.late)) =
      Some (length (Demo.curve "Vivid") - 1)%nat /\
    b_next b = (length (Demo.curve "Vivid") - 1)%nat /\
    b_kp_prev b = (Demo.midnight + 86160 * Dt.SECOND, [255; 255; 0]) /\
    b_kp_next b = (Demo.midnight + 86280 * Dt.SECOND, [255; 127; 0]) /\
    bracket_of (Demo.curve "Vivid") (dt_now (Demo.env_at Demo.late))
      b /\
    turn_on (Demo.env_at Demo.late) (Demo.mode_kw "Vivid")
      Demo.fresh = Some (Ok tt, st') /\
    calls (hass st') = calls (hass Demo.fresh) ++ [immediate].
Proof.
  apply (turn_on_past_last_key_point (Demo.env_at Demo.late)
           (Demo.mode_kw "Vivid") Demo.fresh (Demo.curve "Vivid")).
  - vm_compute. reflexivity.
  - vm_compute. reflexivity.
  - vm_compute. discriminate.
  - unfold exhausted. apply Forall_forall.
    apply (bool_decide_unpack _). vm_compute. exact I.
  - vm_compute. lia.
  - vm_compute. reflexivity.
  - vm_compute. reflexivity.
  - vm_compute. discriminate.
  - vm_compute. lia.
  - vm_compute. lia.
Defined.

(** C2.  The code on the built Vivid curve at 23:59:00, one minute after
    its last key point (23:58:00): no key point is at or after [now], the
    scan stops at index 719 of 720 and nothing is raised.  The pair taken
    is the last two key points, 23:56:00 and 23:58:00, which do not lie
    around [now]: the ratio is 1.5, the colour sent at once is
    extrapolated beyond the last key point, the drift runs for 86340
    seconds and the repeat is due 86341 seconds later. *)
Lemma exhausted_scan_goes_on :
  trip_points (self Demo.fresh) !! "Vivid" = Some (Demo.curve "Vivid") /\
  exhausted (Demo.curve "Vivid") (dt_now (Demo.env_at Demo.late)) /\
  length (Demo.curve "Vivid") = 720%nat /\
  scan (Demo.curve "Vivid") (dt_now (Demo.env_at Demo.late))
    = Some 719%nat /\
  Demo.curve "Vivid" !! 718%nat =
    Some (Demo.midnight + 86160 * Dt.SECOND, [255; 255; 0]) /\
  Demo.curve "Vivid" !! 719%nat =
    Some (Demo.midnight + 86280 * Dt.SECOND, [255; 127; 0]) /\
  dt_now (Demo.env_at Demo.late) = Demo.midnight + 86340 * Dt.SECOND /\
  time_ratio (dt_now (Demo.env_at Demo.late))
    (Demo.midnight + 86160 * Dt.SECOND) (Demo.midnight + 86280 * Dt.SECOND)
    = Ok 1.5%float /\
  turn_on (Demo.env_at Demo.late) (Demo.mode_kw "Vivid")
    Demo.fresh =
    Some (Ok tt, Demo.after (Demo.env_at Demo.late)
                   (Demo.mode_kw "Vivid") Demo.fresh) /\
  calls (hass (Demo.after (Demo.env_at Demo.late)
                 (Demo.mode_kw "Vivid") Demo.fresh)) =
    [light_turn_on "light.lamp" (Int 255)
       (rgb_color [Flt 255; Flt 63; Flt 0]) (Flt 0.2)] /\
  tasks (hass (Demo.after (Demo.env_at Demo.late)
                 (Demo.mode_kw "Vivid") Demo.fresh)) =
    [Task 2
       (async_call
          (light_turn_on "light.lamp" (Int 255)
             (rgb_color [Int 255; Int 127; Int 0]) (Int 86340)))
       false;
     Task 86341
       (call_turn_on (Kwargs (Some true) (Some "Vivid") (Some 255) None None))
       false] /\
  ~ fails_exhausted (Demo.env_at Demo.late) (Demo.mode_kw "Vivid")
      Demo.fresh (Demo.curve "Vivid").
Proof.
  assert (scan (Demo.curve "Vivid")
            (dt_now (Demo.env_at Demo.late)) = Some 719%nat) as Hscan
    by (vm_compute; reflexivity).
  assert (length (Demo.curve "Vivid") = 720%nat) as Hlen
    by (vm_compute; reflexivity).
  split; [vm_compute; reflexivity |].
  split.
  { unfold exhausted. apply Forall_forall.
    apply (bool_decide_unpack _). vm_compute. exact I. }
  split; [done |]. split; [done |].
  split; [vm_compute; reflexivity |].
  split; [vm_compute; reflexivity |].
  split; [vm_compute; reflexivity |].
  split; [vm_compute; reflexivity |].
  split; [apply after_succeeds; vm_compute; reflexivity |].
  split; [vm_compute; reflexivity |].
  split; [vm_compute; reflexivity |].
  intros (Hnext & _). rewrite Hscan, Hlen in Hnext. discriminate Hnext.
Qed.

(** * Further properties of the class *)

(** ** Turning off *)

Lemma cancel_tasks_nil (ts : list task) : cancel_tasks [] ts = ts.
Proof. done. Qed.

(** [turn_on] with brightness 0 never looks a curve up: whatever the mode,
    known or not, and whatever [nocancel], it returns normally, cancels
    every pending handle, empties the collection, creates no task and
    makes exactly one service call, [light.turn_off]. *)
Theorem turn_on_brightness_zero (env : Env) (kw : kwargs) (st : Store) :
  arg_brightness kw = 0 ->
  exists st' : Store,
    turn_on env kw st = Some (Ok tt, st') /\
    calls (hass st') =
      calls (hass st) ++
      [light_turn_off (_entity (self st))
         (default (Flt (off_transition (self st))) (kw_transition kw))] /\
    tasks (hass st') = cancel_tasks (_currSched (self st)) (tasks (hass st)) /\
    _currSched (self st') = [] /\
    _brightness (self st') = 0.
Proof.
  intros Hzero.
  destruct (turn_on_outcome env kw st) as (o & h & r & st' & Hpro & Hrun & Hout).
  destruct (after_prologue_calls _ _ _ _ _ Hpro) as (Hc & _ & He & _).
  destruct Hpro as (Hh & Hcs & _ & Hb & _ & _ & Hset & _).
  destruct Hset as (_ & _ & _ & _ & _ & _ & Hoff).
  rewrite Hzero in Hb.
  destruct Hout as [H0 | ? ? | e tp ? ? | tp b dp dn ? ? ? ? ? ?
                    | tp b rgb ? ? ? ? ?]; try congruence.
  eexists. split; [exact Hrun |]. project.
  rewrite Hc, He, Hoff, Hcs, Hh.
  by destruct (arg_nocancel kw).
Qed.

Lemma turn_on_brightness_zero_witness :
  exists st' : Store,
    turn_on (Demo.env_at Demo.noon) (Kwargs (Some true) (Some "Foo") (Some 0)
                                        None None) Demo.lit
      = Some (Ok tt, st') /\
    calls (hass st') =
      calls (hass Demo.lit) ++
      [light_turn_off (_entity (self Demo.lit))
         (default (Flt (off_transition (self Demo.lit)))
            (kw_transition (Kwargs (Some true) (Some "Foo") (Some 0)
                              None None)))] /\
    tasks (hass st') =
      cancel_tasks (_currSched (self Demo.lit)) (tasks (hass Demo.lit)) /\
    _currSched (self st') = [] /\
    _brightness (self st') = 0.
Proof.
  apply (turn_on_brightness_zero (Demo.env_at Demo.noon)
           (Kwargs (Some true) (Some "Foo") (Some 0) None None) Demo.lit).
  reflexivity.
Defined.

(** ** Failures *)

(** Whatever exception leaves [turn_on], no service call was made and no
    task was created on the way: the call log is as before, and the tasks
    and the collection are as before, or cancelled and emptied when
    [nocancel] was not set. *)
Theorem turn_on_failure_is_clean (env : Env) (kw : kwargs) (st st' : Store)
    (e : exn) :
  turn_on env kw st = Some (Raise e, st') ->
  calls (hass st') = calls (hass st) /\
  tasks (hass st') =
    (if arg_nocancel kw then tasks (hass st)
     else cancel_tasks (_currSched (self st)) (tasks (hass st))) /\
  _currSched (self st') =
    (if arg_nocancel kw then _currSched (self st) else []).
Proof.
  intros Hrun.
  destruct (turn_on_outcome env kw st)
    as (o & h & r & st1 & Hpro & Hrun' & Hout).
  rewrite Hrun in Hrun'. injection Hrun' as <- <-.
  destruct (after_prologue_calls _ _ _ _ _ Hpro) as (Hc & _).
  destruct Hpro as (Hh & Hcs & _).
  inversion Hout; subst; project; rewrite ?Hc;
    by destruct (arg_nocancel kw).
Qed.

Lemma turn_on_failure_is_clean_witness :
  calls (hass (Demo.after (Demo.env_at Dt.SECOND) (Demo.mode_kw "Foo")
                 Demo.lit)) = calls (hass Demo.lit) /\
  tasks (hass (Demo.after (Demo.env_at Dt.SECOND) (Demo.mode_kw "Foo")
                 Demo.lit)) =
    (if arg_nocancel (Demo.mode_kw "Foo") then tasks (hass Demo.lit)
     else cancel_tasks (_currSched (self Demo.lit)) (tasks (hass Demo.lit))) /\
  _currSched (self (Demo.after (Demo.env_at Dt.SECOND) (Demo.mode_kw "Foo")
                      Demo.lit)) =
    (if arg_nocancel (Demo.mode_kw "Foo") then _currSched (self Demo.lit)
     else []).
Proof.
  apply (turn_on_failure_is_clean (Demo.env_at Dt.SECOND)
           (Demo.mode_kw "Foo") Demo.lit _ (KeyError "Foo")).
  unfold Demo.after.
  assert (match turn_on (Demo.env_at Dt.SECOND) (Demo.mode_kw "Foo") Demo.lit
          with
          | Some (Raise (KeyError k), _) => String.eqb k "Foo"
          | _ => false
          end = true) as Hraised by (vm_compute; reflexivity).
  destruct (turn_on (Demo.env_at Dt.SECOND) (Demo.mode_kw "Foo") Demo.lit)
    as [[[[] | [k | | |]] st1] |]; try discriminate Hraised.
  apply String.eqb_eq in Hraised. by subst k.
Defined.

(** ** The pending collection and the tasks *)

Lemma tracked_cancel (o o' : RightLight) (h : Hass) (c : list service_call) :
  tracked o h ->
  _currSched o' = [] ->
  tracked o' (MkHass c (cancel_tasks (_currSched o) (tasks h))).
Proof.
  intros Htr Hnil i t' Hi. cbn [tasks] in Hi. rewrite Hnil.
  assert (i < length (tasks h))%nat as Hlt.
  { apply lookup_lt_Some in Hi. by rewrite length_cancel_tasks in Hi. }
  destruct (lookup_lt_is_Some_2 _ _ Hlt) as [t Ht].
  destruct (cancel_tasks_lookup (_currSched o) _ _ _ Ht)
    as (t1 & Ht1 & _ & _ & Hc & _).
  rewrite Ht1 in Hi. injection Hi as <-.
  split; [| by intros Hin%elem_of_nil].
  intros Hfalse. exfalso.
  destruct (cancelled t) eqn:Hct.
  - rewrite Hc in Hfalse; [done | by left].
  - rewrite Hc in Hfalse; [done |]. right. by apply (Htr i t).
Qed.

Lemma tracked_cycle (o : RightLight) (h : Hass) (c d : service_call)
    (time_rem rand : Z) (kw : kwargs) :
  tracked o h ->
  tracked (self (after_cycle o h c d time_rem rand kw))
    (hass (after_cycle o h c d time_rem rand kw)).
Proof.
  intros Htr i t.
  rewrite after_cycle_tasks, after_cycle_currSched. intros Hi.
  destruct (decide (i < length (tasks h))%nat) as [Hlt | Hge].
  - rewrite lookup_app_l in Hi by done.
    rewrite (Htr i t Hi), elem_of_app, !elem_of_cons, elem_of_nil. split.
    + by left.
    + intros [? | [-> | [-> | []]]]; [done | lia | lia].
  - rewrite lookup_app_r in Hi by lia.
    rewrite elem_of_app, !elem_of_cons, elem_of_nil.
    destruct (i - length (tasks h))%nat as [| [| k]] eqn:Hk;
      cbn in Hi; [| | done]; injection Hi as <-; cbn [cancelled].
    + split; [| done]. intros _. right. left. lia.
    + split; [| done]. intros _. right. right. left. lia.
Qed.

(** Through any call of [turn_on], with any arguments and any outcome, the
    tasks that are not cancelled stay exactly the handles of the pending
    collection: no task is left running outside the collection, and no
    cancelled task stays in it. *)
Theorem turn_on_keeps_tracked (env : Env) (kw : kwargs) (st : Store) :
  tracked (self st) (hass st) ->
  exists (r : result unit) (st' : Store),
    turn_on env kw st = Some (r, st') /\
    tracked (self st') (hass st').
Proof.
  intros Htr.
  destruct (turn_on_outcome env kw st) as (o & h & r & st' & Hpro & Hrun & Hout).
  exists r, st'. split; [done |].
  destruct Hpro as (Hh & Hcs & _).
  assert (tracked o h) as Htr1.
  { destruct (arg_nocancel kw).
    - intros i t. rewrite Hh, Hcs. apply Htr.
    - rewrite Hh. by apply tracked_cancel. }
  destruct Hout as [H0 | ? ? | e tp ? ? | tp b dp dn ? ? ? ? ? ?
                    | tp b rgb ? ? ? ? ?]; project.
  - by apply tracked_cancel.
  - done.
  - done.
  - by apply tracked_cycle.
  - by apply tracked_cycle.
Qed.

Lemma turn_on_keeps_tracked_witness :
  exists (r : result unit) (st' : Store),
    turn_on (Demo.env_at Demo.noon) Demo.vivid_kw Demo.blank = Some (r, st') /\
    tracked (self st') (hass st').
Proof.
  apply (turn_on_keeps_tracked (Demo.env_at Demo.noon) Demo.vivid_kw
           Demo.blank).
  intros i t Hi. vm_compute in Hi. discriminate Hi.
Defined.

(** A call with [nocancel] set and a non-zero brightness, as the re-arm
    makes it, cancels nothing and drops nothing: whatever its outcome, the
    tasks and the pending collection it found are a prefix of the ones it
    leaves. *)
Theorem nocancel_call_keeps_chain (env : Env) (kw : kwargs) (st : Store) :
  arg_nocancel kw = true ->
  arg_brightness kw <> 0 ->
  exists (r : result unit) (st' : Store),
    turn_on env kw st = Some (r, st') /\
    tasks (hass st) `prefix_of` tasks (hass st') /\
    _currSched (self st) `prefix_of` _currSched (self st').
Proof.
  intros Hnc Hbr.
  destruct (turn_on_outcome env kw st) as (o & h & r & st' & Hpro & Hrun & Hout).
  exists r, st'. split; [done |].
  destruct Hpro as (Hh & Hcs & _ & Hb & _). rewrite Hnc in Hh, Hcs.
  rewrite <- Hb in Hbr. subst h.
  destruct Hout as [H0 | ? ? | e tp ? ? | tp b dp dn ? ? ? ? ? ?
                    | tp b rgb ? ? ? ? ?]; try done; project;
    rewrite ?after_cycle_tasks, ?after_cycle_currSched, ?Hcs;
    split; by try apply prefix_app_r.
Qed.

Lemma nocancel_call_keeps_chain_witness :
  exists (r : result unit) (st' : Store),
    turn_on (Demo.env_at Demo.noon) (normal_rearm (self Demo.lit)) Demo.lit
      = Some (r, st') /\
    tasks (hass Demo.lit) `prefix_of` tasks (hass st') /\
    _currSched (self Demo.lit) `prefix_of` _currSched (self st').
Proof.
  apply (nocancel_call_keeps_chain (Demo.env_at Demo.noon)
           (normal_rearm (self Demo.lit)) Demo.lit).
  - reflexivity.
  - vm_compute. discriminate.
Defined.

(** ** [disable] *)

(** [disable] always returns normally; it makes no service call and creates
    no task, cancels the task of every pending handle, leaves every other
    task as it was and empties the collection.  A second [disable] changes
    nothing. *)
Theorem disable_cancels_pending (st : Store) :
  exists st' : Store,
    disable st = Some (Ok tt, st') /\
    calls (hass st') = calls (hass st) /\
    length (tasks (hass st')) = length (tasks (hass st)) /\
    _currSched (self st') = [] /\
    (forall (i : nat) (t : task),
        tasks (hass st) !! i = Some t ->
        exists t' : task,
          tasks (hass st') !! i = Some t' /\
          delay t' = delay t /\ target t' = target t /\
          (cancelled t' = true <->
           cancelled t = true \/ i ∈ _currSched (self st))) /\
    disable st' = Some (Ok tt, st').
Proof.
  unfold disable. rewrite _cancelSched_spec. eexists. split; [done |].
  project. repeat (split; [done || apply length_cancel_tasks |]).
  split.
  - intros i t Ht.
    destruct (cancel_tasks_lookup (_currSched (self st)) _ _ _ Ht)
      as (t' & Ht' & Hd & Hta & Hc & Hc').
    exists t'. by repeat split.
  - by rewrite _cancelSched_spec.
Qed.

(** ** The shape of a palette walk *)

Lemma cyclic_curve_length (early late step : Z) (palette : list value) :
  length (cyclic_curve early late step palette) =
  Z.to_nat (ceil_div (late - early) step).
Proof. unfold cyclic_curve. by rewrite length_map, length_seq. Qed.

Lemma cyclic_curve_lookup (early late step : Z) (palette : list value)
    (i : nat) (kp : keypoint) :
  cyclic_curve early late step palette !! i = Some kp ->
  (i < Z.to_nat (ceil_div (late - early) step))%nat /\
  kp = (early + Z.of_nat i * step,
        palette !!! (i mod length palette)%nat).
Proof.
  intros Hi. pose proof (lookup_lt_Some _ _ _ Hi) as Hlt.
  rewrite cyclic_curve_length in Hlt. split; [done |].
  unfold cyclic_curve in Hi.
  rewrite list_lookup_fmap, lookup_seq_lt in Hi by done.
  by injection Hi as <-.
Qed.

Lemma cyclic_curve_lookup_lt (early late step : Z) (palette : list value)
    (i : nat) :
  (i < Z.to_nat (ceil_div (late - early) step))%nat ->
  cyclic_curve early late step palette !! i =
  Some (early + Z.of_nat i * step, palette !!! (i mod length palette)%nat).
Proof.
  intros Hi. unfold cyclic_curve.
  by rewrite list_lookup_fmap, lookup_seq_lt.
Qed.

Lemma cyclic_curve_increasing (early late step : Z) (palette : list value) :
  0 < step -> increasing (cyclic_curve early late step palette).
Proof.
  intros Hs i j a b Hij Ha Hb.
  apply cyclic_curve_lookup in Ha as [_ ->].
  apply cyclic_curve_lookup in Hb as [_ ->].
  unfold timestamp. simpl. nia.
Qed.

Lemma palette_lookup_total_elem (palette : list value) (i : nat) :
  palette <> [] -> palette !!! (i mod length palette)%nat ∈ palette.
Proof.
  intros Hne. apply list_elem_of_lookup_total_2.
  apply Nat.mod_upper_bound. destruct palette; [done | simpl; lia].
Qed.

(** For a positive step and a non-empty palette the walk of
    [enumerateTripPoints] returns a curve whose timestamps grow strictly
    and stay in [[midnight, end of day)], whose values all come from the
    palette, that starts at midnight with the first colour when the day is
    not empty, and that ends less than one step before the end of day. *)
Theorem enumerateTripPoints_shape (early late step : Z)
    (palette : list value) :
  0 < step -> palette <> [] ->
  exists kps : list keypoint,
    enumerateTripPoints early late step palette = Some (Ok kps) /\
    increasing kps /\
    (forall kp : keypoint,
        kp ∈ kps ->
        early <= timestamp kp < late /\ kp_value kp ∈ palette) /\
    (early < late -> exists v : value,
        head palette = Some v /\ head kps = Some (early, v)) /\
    (forall kp : keypoint, last kps = Some kp -> late <= timestamp kp + step).
Proof.
  intros Hs Hne. exists (cyclic_curve early late step palette).
  split; [by apply enumerateTripPoints_closed_form |].
  split; [by apply cyclic_curve_increasing |].
  pose proof (ceil_div_bounds (late - early) step Hs) as Hceil.
  split; [| split].
  - intros kp Hin. apply list_elem_of_lookup in Hin as [i Hi].
    apply cyclic_curve_lookup in Hi as [Hlt ->]. unfold timestamp, kp_value.
    simpl. split; [nia |]. by apply palette_lookup_total_elem.
  - intros Hlt. destruct palette as [| v palette]; [done |].
    exists v. split; [done |].
    rewrite head_lookup, cyclic_curve_lookup_lt.
    + f_equal. f_equal; [lia |]. by rewrite Nat.Div0.mod_0_l.
    + pose proof (ceil_div_pos (late - early) step Hs). lia.
  - intros kp Hlast. rewrite last_lookup, cyclic_curve_length in Hlast.
    apply cyclic_curve_lookup in Hlast as [Hlt ->]. unfold timestamp. simpl.
    nia.
Qed.

Lemma enumerateTripPoints_shape_witness :
  exists kps : list keypoint,
    enumerateTripPoints 0 (86399 * Dt.SECOND) (Dt.minutes 2 / 8)
      one_trip_points = Some (Ok kps) /\
    increasing kps /\
    (forall kp : keypoint,
        kp ∈ kps ->
        0 <= timestamp kp < 86399 * Dt.SECOND /\
        kp_value kp ∈ one_trip_points) /\
    (0 < 86399 * Dt.SECOND -> exists v : value,
        head one_trip_points = Some v /\ head kps = Some (0, v)) /\
    (forall kp : keypoint,
        last kps = Some kp ->
        86399 * Dt.SECOND <= timestamp kp + Dt.minutes 2 / 8).
Proof.
  apply (enumerateTripPoints_shape 0 (86399 * Dt.SECOND) (Dt.minutes 2 / 8)
           one_trip_points); [reflexivity | discriminate].
Defined.

(** ** Bracketing pairs on any curve *)

Lemma py_index_minus_one {A : Type} (l : list A) (x : A) :
  last l = Some x -> py_index l (-1) = Ok x.
Proof.
  intros Hlast. rewrite last_lookup in Hlast.
  pose proof (lookup_lt_Some _ _ _ Hlast) as Hlt.
  unfold py_index. cbn [Z.ltb Z.compare].
  destruct (Z.leb_spec 0 (-1 + Z.of_nat (length l))); [| lia].
  destruct (Z.ltb_spec (-1 + Z.of_nat (length l)) (Z.of_nat (length l)));
    [| lia].
  cbn [andb].
  replace (Z.to_nat (-1 + Z.of_nat (length l))) with (pred (length l)) by lia.
  by rewrite Hlast.
Qed.

Lemma bracket_intro (tp : list keypoint) (now_ : Z) (next : nat)
    (kp_prev kp_next : keypoint) :
  scan tp now_ = Some next ->
  py_index tp (Z.of_nat next - 1) = Ok kp_prev ->
  py_index tp (Z.of_nat next) = Ok kp_next ->
  timestamp kp_next <> timestamp kp_prev ->
  bracket_of tp now_
    (Bracket next kp_prev kp_next
       (Z2F (now_ - timestamp kp_prev)
        / Z2F (timestamp kp_next - timestamp kp_prev))%float
       (Dt.seconds (timestamp kp_next - now_))).
Proof.
  intros Hs Hp Hn Hne. unfold bracket_of.
  cbn [b_next b_kp_prev b_kp_next b_ratio b_time_rem].
  repeat (split; [done |]). split; [| done].
  unfold time_ratio.
  destruct (Z.eqb_spec (timestamp kp_next - timestamp kp_prev) 0);
    [lia | done].
Qed.

Lemma seconds_range (d : Z) : 0 <= Dt.seconds d < 86400.
Proof.
  unfold Dt.seconds, Dt.DAY, Dt.SECOND.
  pose proof (Z.mod_pos_bound d (86400 * 1000000) ltac:(lia)) as Hm.
  split.
  - apply Z.div_pos; lia.
  - apply Z.div_lt_upper_bound; lia.
Qed.

Lemma seconds_small (d : Z) :
  0 <= d < Dt.DAY -> Dt.seconds d = d / Dt.SECOND.
Proof. intros Hd. unfold Dt.seconds. by rewrite Z.mod_small. Qed.

(** When [now] lies strictly after the first key point and some key point
    is at or after it, the pair the scan selects has a positive time span
    that contains [now]: the division of [time_ratio] raises nothing, the
    exact ratio lies in (0, 1], and when the next key point is less than a
    day ahead the remaining time is the whole seconds up to it. *)
Theorem bracket_inside_curve (tp : list keypoint) (now_ : Z)
    (kp0 : keypoint) :
  tp !! O = Some kp0 -> timestamp kp0 < now_ ->
  (exists kp, kp ∈ tp /\ now_ <= timestamp kp) ->
  exists b : bracket,
    bracket_of tp now_ b /\
    (1 <= b_next b)%nat /\
    0 < now_ - timestamp (b_kp_prev b)
      <= timestamp (b_kp_next b) - timestamp (b_kp_prev b) /\
    (timestamp (b_kp_next b) - now_ < Dt.DAY ->
     b_time_rem b = (timestamp (b_kp_next b) - now_) / Dt.SECOND).
Proof.
  intros H0 Hlt Hsome.
  destruct (scan_loop_found tp now_ O None Hsome)
    as (j & kpj & Hs & Hj & Hle & Hfirst).
  destruct j as [| j].
  { rewrite H0 in Hj. injection Hj as <-. lia. }
  assert (is_Some (tp !! j)) as [kpp Hp].
  { apply lookup_lt_is_Some. apply lookup_lt_Some in Hj. lia. }
  pose proof (Hfirst j kpp ltac:(lia) Hp) as Hprev.
  eexists. split.
  - apply (bracket_intro tp now_ (S j) kpp kpj); [done | | | lia].
    + by apply py_index_pred.
    + by apply py_index_nonneg.
  - cbn [b_next b_kp_prev b_kp_next b_time_rem].
    split; [lia |]. split; [lia |].
    intros Hday. apply seconds_small. lia.
Qed.

Lemma bracket_inside_curve_witness :
  exists b : bracket,
    bracket_of [(0, [255; 0; 0]); (120, [202; 0; 127]); (240, [130; 0; 255])]
      130 b /\
    (1 <= b_next b)%nat /\
    0 < 130 - timestamp (b_kp_prev b)
      <= timestamp (b_kp_next b) - timestamp (b_kp_prev b) /\
    (timestamp (b_kp_next b) - 130 < Dt.DAY ->
     b_time_rem b = (timestamp (b_kp_next b) - 130) / Dt.SECOND).
Proof.
  apply (bracket_inside_curve
           [(0, [255; 0; 0]); (120, [202; 0; 127]); (240, [130; 0; 255])]
           130 (0, [255; 0; 0])).
  - reflexivity.
  - reflexivity.
  - exists (240, [130; 0; 255]). split.
    + right. right. left.
    + simpl. lia.
Defined.

(** At or before the first key point the scan stops at index 0 and
    [prev = -1] is the last key point of the curve: the pair is
    (last, first), and its time span is negative on a curve whose
    timestamps grow. *)
Theorem scan_wraps_at_first_key_point (tp : list keypoint) (now_ : Z)
    (kp0 kp_last : keypoint) :
  tp !! O = Some kp0 ->
  last tp = Some kp_last ->
  now_ <= timestamp kp0 ->
  timestamp kp0 < timestamp kp_last ->
  exists b : bracket,
    bracket_of tp now_ b /\
    b_next b = O /\
    b_kp_prev b = kp_last /\
    b_kp_next b = kp0 /\
    timestamp (b_kp_next b) - timestamp (b_kp_prev b) < 0.
Proof.
  intros H0 Hlast Hle Hlt.
  assert (scan tp now_ = Some O) as Hs.
  { destruct tp as [| kp tl]; [done |]. injection H0 as ->.
    unfold scan. simpl. by destruct (Z.leb_spec now_ (timestamp kp0)); [| lia]. }
  eexists. split.
  - apply (bracket_intro tp now_ O kp_last kp0); [done | | | lia].
    + by apply py_index_minus_one.
    + by apply (py_index_nonneg tp O).
  - cbn [b_next b_kp_prev b_kp_next]. repeat (split; [done |]). lia.
Qed.

Lemma scan_wraps_at_first_key_point_witness :
  exists b : bracket,
    bracket_of [(0, [255; 0; 0]); (120, [202; 0; 127]); (240, [130; 0; 255])]
      0 b /\
    b_next b = O /\
    b_kp_prev b = (240, [130; 0; 255]) /\
    b_kp_next b = (0, [255; 0; 0]) /\
    timestamp (b_kp_next b) - timestamp (b_kp_prev b) < 0.
Proof.
  apply (scan_wraps_at_first_key_point
           [(0, [255; 0; 0]); (120, [202; 0; 127]); (240, [130; 0; 255])]
           0 (0, [255; 0; 0]) (240, [130; 0; 255])); reflexivity.
Defined.

Lemma increasing_distinct (tp : list keypoint) (i j : nat) (a b : keypoint) :
  increasing tp -> (i < j)%nat -> tp !! i = Some a -> tp !! j = Some b ->
  timestamp b <> timestamp a.
Proof. intros Hinc Hij Ha Hb. pose proof (Hinc i j a b Hij Ha Hb). lia. Qed.

(** On a curve of two or more key points with growing timestamps the scan
    yields a usable pair at every instant. *)
Lemma bracket_exists (tp : list keypoint) (now_ : Z) :
  increasing tp -> (2 <= length tp)%nat ->
  exists b : bracket,
    bracket_of tp now_ b /\ b_kp_prev b ∈ tp /\ b_kp_next b ∈ tp.
Proof.
  intros Hinc Hlen.
  destruct (lookup_lt_is_Some_2 tp 0 ltac:(lia)) as [kp0 H0].
  destruct (lookup_lt_is_Some_2 tp (length tp - 1) ltac:(lia)) as [kpl Hl].
  destruct (lookup_lt_is_Some_2 tp (length tp - 2) ltac:(lia)) as [kpm Hm].
  destruct (decide (Forall (fun kp => timestamp kp < now_) tp)) as [Hall | Hex].
  - (* past the last key point *)
    assert (exhausted tp now_) as Hexh
      by (unfold exhausted; by apply Forall_forall).
    eexists. split.
    + apply (bracket_intro tp now_ (length tp - 1) kpm kpl).
      * apply scan_exhausted; [| done]. intros ->. simpl in Hlen. lia.
      * replace (length tp - 1)%nat with (S (length tp - 2)) by lia.
        by apply py_index_pred.
      * by apply py_index_nonneg.
      * apply (increasing_distinct tp (length tp - 2) (length tp - 1));
          [done | lia | done | done].
    + cbn [b_kp_prev b_kp_next].
      split; by eapply list_elem_of_lookup_2.
  - apply (not_Forall_Exists _) in Hex.
    apply Exists_exists in Hex as (kp & Hin & Hge). cbn in Hge.
    destruct (scan_loop_found tp now_ O None) as (j & kpj & Hs & Hj & _ & _).
    { exists kp. split; [done | lia]. }
    destruct j as [| j].
    + (* at or before the first key point *)
      rewrite H0 in Hj. injection Hj as <-.
      eexists. split.
      * apply (bracket_intro tp now_ O kpl kp0); [done | | |].
        -- change (Z.of_nat 0 - 1) with (-1). apply py_index_minus_one.
           rewrite last_lookup.
           by replace (pred (length tp)) with (length tp - 1)%nat by lia.
        -- by apply (py_index_nonneg tp O).
        -- intros Heq.
           apply (increasing_distinct tp 0 (length tp - 1) kp0 kpl);
             [done | lia | done | done | done].
      * cbn [b_kp_prev b_kp_next].
        split; by eapply list_elem_of_lookup_2.
    + assert (is_Some (tp !! j)) as [kpp Hp].
      { apply lookup_lt_is_Some. apply lookup_lt_Some in Hj. lia. }
      eexists. split.
      * apply (bracket_intro tp now_ (S j) kpp kpj); [done | | |].
        -- by apply py_index_pred.
        -- by apply py_index_nonneg.
        -- apply (increasing_distinct tp j (S j)); [done | lia | done | done].
      * cbn [b_kp_prev b_kp_next].
        split; by eapply list_elem_of_lookup_2.
Qed.

(** ** Calls that cannot fail *)

(** On a curve already built for the day that has two or more key points,
    strictly growing timestamps and values as wide as the mode reads,
    [turn_on] with a non-zero brightness completes its cycle at every
    instant: before the first key point, between two key points and past the
    last one alike.  It makes one service call and leaves two new tasks at
    the end of the pending collection, the second due between 1 and 86400
    seconds later. *)
Theorem turn_on_completes_on_increasing (env : Env) (kw : kwargs)
    (st : Store) (tp : list keypoint) :
  today (self st) = Some (date_today env) ->
  trip_points (self st) !! arg_mode kw = Some tp ->
  arg_brightness kw <> 0 ->
  increasing tp ->
  (2 <= length tp)%nat ->
  values_wide (value_width (arg_mode kw)) tp ->
  exists (st' : Store) (immediate drift : service_call) (rearm : kwargs)
         (delay_rearm : Z),
    turn_on env kw st = Some (Ok tt, st') /\
    calls (hass st') = calls (hass st) ++ [immediate] /\
    tasks (hass st') =
      (if arg_nocancel kw then tasks (hass st)
       else cancel_tasks (_currSched (self st)) (tasks (hass st)))
      ++ [Task (random_randrange_1_5 env) (async_call drift) false;
          Task delay_rearm (call_turn_on rearm) false] /\
    _currSched (self st') =
      (if arg_nocancel kw then _currSched (self st) else [])
      ++ [length (tasks (hass st)); S (length (tasks (hass st)))] /\
    1 <= delay_rearm <= 86400.
Proof.
  intros Htoday Htp Hbr Hinc Hlen Hwide.
  destruct (bracket_exists tp (dt_now env) Hinc Hlen)
    as (b & Hbk & Hprev & Hnext).
  unfold values_wide in Hwide. rewrite Forall_forall in Hwide.
  destruct (turn_on_prologue env kw st) as (o & h & Heq & Hpro).
  destruct (after_prologue_calls _ _ _ _ _ Hpro) as (Hc & Hl & _).
  pose proof Hpro as (Hh & Hcs & Hm & Hb & _ & Hnow & _ & _ & Hsame).
  destruct (turn_on_body_completes env kw o h tp b) as (c & d & rearm & Hrun).
  { by rewrite Hb. }
  { by rewrite Hm, (Hsame Htoday). }
  { by rewrite Hnow. }
  { rewrite Hm. by apply Hwide. }
  { rewrite Hm. by apply Hwide. }
  eexists _, c, d, rearm, (b_time_rem b + 1).
  split; [by rewrite Heq, Hrun |].
  rewrite after_cycle_calls, after_cycle_tasks, after_cycle_currSched.
  rewrite Hc, Hcs, Hl. split; [done |]. split.
  { rewrite Hh. by destruct (arg_nocancel kw). }
  split; [done |].
  destruct Hbk as (_ & _ & _ & _ & ->).
  pose proof (seconds_range (timestamp (b_kp_next b) - dt_now env)). lia.
Qed.

Lemma turn_on_completes_on_increasing_witness :
  exists (st' : Store) (immediate drift : service_call) (rearm : kwargs)
         (delay_rearm : Z),
    turn_on (Demo.env_at Demo.late) (Demo.mode_kw "Vivid") Demo.lit
      = Some (Ok tt, st') /\
    calls (hass st') = calls (hass Demo.lit) ++ [immediate] /\
    tasks (hass st') =
      (if arg_nocancel (Demo.mode_kw "Vivid") then tasks (hass Demo.lit)
       else cancel_tasks (_currSched (self Demo.lit)) (tasks (hass Demo.lit)))
      ++ [Task (random_randrange_1_5 (Demo.env_at Demo.late))
            (async_call drift) false;
          Task delay_rearm (call_turn_on rearm) false] /\
    _currSched (self st') =
      (if arg_nocancel (Demo.mode_kw "Vivid") then _currSched (self Demo.lit)
       else [])
      ++ [length (tasks (hass Demo.lit)); S (length (tasks (hass Demo.lit)))] /\
    1 <= delay_rearm <= 86400.
Proof.
  apply (turn_on_completes_on_increasing (Demo.env_at Demo.late)
           (Demo.mode_kw "Vivid") Demo.lit
           (cyclic_curve Demo.midnight (Demo.midnight + 86399 * Dt.SECOND)
              (Dt.minutes 2) vivid_trip_points)).
  - vm_compute. reflexivity.
  - vm_compute. reflexivity.
  - vm_compute. discriminate.
  - apply cyclic_curve_increasing. reflexivity.
  - vm_compute. lia.
  - unfold values_wide. apply (bool_decide_unpack _). vm_compute. exact I.
Defined.

(** ** The clock refresh in closed form *)

Lemma _getNow_exact (env : Env) (o : RightLight) (h : Hass) :
  _getNow env (MkStore o h) = Some (Ok tt, MkStore (refreshed env o) h).
Proof.
  unfold _getNow, refreshed. run.
  destruct (bool_decide (Some (date_today env) = today o)); cbn [negb]; run.
  - done.
  - by rewrite defineTripPoints_spec.
Qed.

Lemma turn_on_prologue_exact (env : Env) (kw : kwargs) (st : Store) :
  turn_on env kw st =
  turn_on_body env kw
    (MkStore
       (set_brightness_override (arg_brightness_override kw)
          (set_brightness (arg_brightness kw)
             (set_mode (arg_mode kw)
                (refreshed env
                   (if arg_nocancel kw then self st
                    else set_currSched [] (self st))))))
       (if arg_nocancel kw then hass st
        else MkHass (calls (hass st))
               (cancel_tasks (_currSched (self st)) (tasks (hass st))))).
Proof.
  destruct st as [o0 h0]. unfold turn_on, arg_nocancel.
  destruct (default false (kw_nocancel kw)); cbn [negb].
  - run. rewrite _getNow_exact. by run.
  - unfold bind at 1. rewrite _cancelSched_spec. project.
    unfold bind at 1. rewrite _getNow_exact. by run.
Qed.

Lemma refreshed_same_date (env : Env) (o : RightLight) :
  today o = Some (date_today env) ->
  refreshed env o = set_today (Some (date_today env)) (set_now (dt_now env) o).
Proof.
  intros Htoday. unfold refreshed. by rewrite bool_decide_eq_true_2.
Qed.

(** Once the clock has been refreshed on a date, a later refresh on the same
    date renews nothing, whatever the clock and the solar source answer
    then: it stores the new [now] and leaves the curves, the day markers
    and the solar instants as they were.  Neither refresh touches the
    Home Assistant side. *)
Theorem _getNow_once_per_date (env env' : Env) (st : Store) :
  date_today env' = date_today env ->
  exists st1 st2 : Store,
    _getNow env st = Some (Ok tt, st1) /\
    _getNow env' st1 = Some (Ok tt, st2) /\
    now (self st2) = dt_now env' /\
    trip_points (self st2) = trip_points (self st1) /\
    midnight_early (self st2) = midnight_early (self st1) /\
    ten_thirty (self st2) = ten_thirty (self st1) /\
    midnight_late (self st2) = midnight_late (self st1) /\
    sunrise (self st2) = sunrise (self st1) /\
    sunset (self st2) = sunset (self st1) /\
    hass st2 = hass st.
Proof.
  intros Hdate. destruct st as [o h].
  eexists _, _. split; [apply _getNow_exact |].
  split; [apply _getNow_exact |].
  assert (today (refreshed env o) = Some (date_today env)) as Htoday.
  { unfold refreshed.
    by destruct (bool_decide (Some (date_today env) = today o)). }
  cbn [self hass]. rewrite <- Hdate in Htoday.
  rewrite (refreshed_same_date env' _ Htoday). by project.
Qed.

Lemma _getNow_once_per_date_witness :
  exists st1 st2 : Store,
    _getNow (Demo.env_at 0) Demo.blank = Some (Ok tt, st1) /\
    _getNow (MkEnv (Demo.midnight + Demo.noon) 3 0 0 4) st1
      = Some (Ok tt, st2) /\
    now (self st2) = dt_now (MkEnv (Demo.midnight + Demo.noon) 3 0 0 4) /\
    trip_points (self st2) = trip_points (self st1) /\
    midnight_early (self st2) = midnight_early (self st1) /\
    ten_thirty (self st2) = ten_thirty (self st1) /\
    midnight_late (self st2) = midnight_late (self st1) /\
    sunrise (self st2) = sunrise (self st1) /\
    sunset (self st2) = sunset (self st1) /\
    hass st2 = hass Demo.blank.
Proof.
  apply (_getNow_once_per_date (Demo.env_at 0)
           (MkEnv (Demo.midnight + Demo.noon) 3 0 0 4) Demo.blank).
  reflexivity.
Defined.

Lemma built_palette_lookup (o : RightLight) (m : string) (s : Z)
    (p : list value) :
  (m, (s, p)) ∈ palette_modes ->
  built_trip_points o !! m =
  Some (cyclic_curve (midnight_early o) (midnight_late o) s p).
Proof.
  unfold palette_modes, built_trip_points. cbv zeta. intros Hin.
  repeat (apply elem_of_cons in Hin as [Hin | Hin];
          [injection Hin as -> -> ->;
           by repeat (rewrite lookup_insert_ne by done);
              rewrite lookup_insert_eq |]).
  by apply elem_of_nil in Hin.
Qed.

Lemma built_normal_lookup (o : RightLight) :
  built_trip_points o !! "Normal" =
  Some (if _debug o =? 2
        then cyclic_curve (midnight_early o) (midnight_late o)
               (Dt.minutes 2 / 8) debug_trip_points
        else normal_trip_points o).
Proof.
  unfold built_trip_points. cbv zeta.
  repeat (rewrite lookup_insert_ne by done). by rewrite lookup_insert_eq.
Qed.

(** On a new date the refresh places the day markers around [now]: midnight
    is the start of the day of [now], 22:30 and 23:59:59 follow it by
    81000 and 86399 seconds, and the sunrise and sunset kept are the
    answered times of day moved onto that day. *)
Theorem _getNow_new_date (env : Env) (st : Store) :
  today (self st) <> Some (date_today env) ->
  exists st' : Store,
    _getNow env st = Some (Ok tt, st') /\
    today (self st') = Some (date_today env) /\
    midnight_early (self st') <= dt_now env
      < midnight_early (self st') + Dt.DAY /\
    midnight_early (self st') mod Dt.DAY = 0 /\
    ten_thirty (self st') = midnight_early (self st') + 81000 * Dt.SECOND /\
    midnight_late (self st') = midnight_early (self st') + 86399 * Dt.SECOND /\
    sunrise (self st') =
      midnight_early (self st') + sun_get_sunrise_time env mod Dt.DAY /\
    sunset (self st') =
      midnight_early (self st') + sun_get_sunset_time env mod Dt.DAY /\
    (forall (m : string) (s : Z) (p : list value),
        (m, (s, p)) ∈ palette_modes ->
        trip_points (self st') !! m =
        Some (cyclic_curve (midnight_early (self st'))
                (midnight_late (self st')) s p)) /\
    trip_points (self st') !! "Normal" =
      Some (if _debug (self st) =? 2
            then cyclic_curve (midnight_early (self st'))
                   (midnight_late (self st')) (Dt.minutes 2 / 8)
                   debug_trip_points
            else normal_trip_points (self st')).
Proof.
  intros Hnew. destruct st as [o h].
  eexists. split; [apply _getNow_exact |].
  cbn [self] in *. unfold refreshed.
  rewrite bool_decide_eq_false_2 by congruence.
  project. unfold Dt.replace_hms, Dt.replace_date.
  pose proof (Z.mod_pos_bound (dt_now env) Dt.DAY ltac:(done)) as Hm.
  split; [done |]. split; [lia |]. split.
  { replace (dt_now env - dt_now env mod Dt.DAY
             + (0 * 3600 + 0 * 60 + 0) * Dt.SECOND)
      with (dt_now env / Dt.DAY * Dt.DAY)
      by (pose proof (Z.div_mod (dt_now env) Dt.DAY ltac:(done)); lia).
    by apply Z.mod_mul. }
  repeat (split; [unfold Dt.SECOND; lia |]).
  split.
  - intros m s p Hin. by rewrite (built_palette_lookup _ m s p Hin).
  - rewrite built_normal_lookup. by project.
Qed.

Lemma _getNow_new_date_witness :
  exists st' : Store,
    _getNow (Demo.env_at Demo.noon) Demo.blank = Some (Ok tt, st') /\
    today (self st') = Some (date_today (Demo.env_at Demo.noon)) /\
    midnight_early (self st') <= dt_now (Demo.env_at Demo.noon)
      < midnight_early (self st') + Dt.DAY /\
    midnight_early (self st') mod Dt.DAY = 0 /\
    ten_thirty (self st') = midnight_early (self st') + 81000 * Dt.SECOND /\
    midnight_late (self st') = midnight_early (self st') + 86399 * Dt.SECOND /\
    sunrise (self st') =
      midnight_early (self st')
      + sun_get_sunrise_time (Demo.env_at Demo.noon) mod Dt.DAY /\
    sunset (self st') =
      midnight_early (self st')
      + sun_get_sunset_time (Demo.env_at Demo.noon) mod Dt.DAY /\
    (forall (m : string) (s : Z) (p : list value),
        (m, (s, p)) ∈ palette_modes ->
        trip_points (self st') !! m =
        Some (cyclic_curve (midnight_early (self st'))
                (midnight_late (self st')) s p)) /\
    trip_points (self st') !! "Normal" =
      Some (if _debug (self Demo.blank) =? 2
            then cyclic_curve (midnight_early (self st'))
                   (midnight_late (self st')) (Dt.minutes 2 / 8)
                   debug_trip_points
            else normal_trip_points (self st')).
Proof.
  apply (_getNow_new_date (Demo.env_at Demo.noon) Demo.blank).
  discriminate.
Defined.

(** ** The palette modes over the life of the object *)

Lemma palette_modes_sound (m : string) (s : Z) (p : list value) :
  (m, (s, p)) ∈ palette_modes ->
  0 < s /\ p <> [] /\
  Forall (fun v : value => (3 <= length v)%nat) p /\
  (2 <= Z.to_nat (ceil_div (86399 * Dt.SECOND) s))%nat /\
  m <> "Normal".
Proof.
  unfold palette_modes. intros Hin.
  repeat (apply elem_of_cons in Hin as [Hin | Hin];
          [injection Hin as -> -> ->;
           split; [reflexivity |]; split; [discriminate |];
           split; [apply (bool_decide_unpack _); vm_compute; exact I |];
           split; [vm_compute; lia | discriminate] |]).
  by apply elem_of_nil in Hin.
Qed.

Lemma refreshed_curves_built (env : Env) (o : RightLight) :
  curves_built o -> curves_built (refreshed env o).
Proof.
  intros Hbuilt m s p Hin. unfold refreshed.
  destruct (bool_decide (Some (date_today env) = today o)).
  - project. by apply Hbuilt.
  - project. exists (Dt.replace_hms (dt_now env) 0 0 0).
    rewrite (built_palette_lookup _ m s p Hin). project.
    do 2 f_equal. unfold Dt.replace_hms, Dt.SECOND. lia.
Qed.

Lemma body_outcome_trip_points (env : Env) (kw : kwargs) (o : RightLight)
    (h : Hass) (r : result unit) (st' : Store) :
  body_outcome env kw o h r st' -> trip_points (self st') = trip_points o.
Proof. by intros []. Qed.

(** The palette curves stay walks of a whole day through every call of
    [turn_on], whatever its arguments and its outcome. *)
Theorem turn_on_keeps_curves_built (env : Env) (kw : kwargs) (st : Store) :
  curves_built (self st) ->
  exists (r : result unit) (st' : Store),
    turn_on env kw st = Some (r, st') /\ curves_built (self st').
Proof.
  intros Hbuilt. rewrite turn_on_prologue_exact.
  match goal with
  | |- context [turn_on_body env kw (MkStore ?o ?h)] =>
      destruct (turn_on_body_outcome env kw o h) as (r & st' & -> & Hout);
      pose proof (body_outcome_trip_points _ _ _ _ _ _ Hout) as Htp
  end.
  exists r, st'. split; [done |].
  intros m s p Hin. rewrite Htp. project.
  apply refreshed_curves_built; [| done].
  by destruct (arg_nocancel kw).
Qed.

Lemma Demo_blank_after_init_built :
  curves_built (self Demo.fresh).
Proof.
  unfold Demo.fresh, __init__, Demo.blank.
  rewrite _getNow_exact. cbn [self].
  intros m s p Hin. unfold refreshed.
  rewrite bool_decide_eq_false_2 by discriminate. project.
  exists (Dt.replace_hms (dt_now (Demo.env_at 0)) 0 0 0).
  rewrite (built_palette_lookup _ m s p Hin). project.
  do 2 f_equal.
Qed.

Lemma turn_on_keeps_curves_built_witness :
  exists (r : result unit) (st' : Store),
    turn_on (Demo.env_at Demo.late) (Demo.mode_kw "Foo") Demo.fresh
      = Some (r, st') /\ curves_built (self st').
Proof.
  apply (turn_on_keeps_curves_built (Demo.env_at Demo.late)
           (Demo.mode_kw "Foo") Demo.fresh).
  apply Demo_blank_after_init_built.
Defined.

Lemma refreshed_currSched (env : Env) (o : RightLight) :
  _currSched (refreshed env o) = _currSched o.
Proof.
  unfold refreshed.
  by destruct (bool_decide (Some (date_today env) = today o)).
Qed.

Lemma cyclic_curve_values (early late step : Z) (palette : list value)
    (kp : keypoint) :
  palette <> [] ->
  kp ∈ cyclic_curve early late step palette -> kp_value kp ∈ palette.
Proof.
  intros Hne Hin. apply list_elem_of_lookup in Hin as [i Hi].
  apply cyclic_curve_lookup in Hi as [_ ->].
  by apply palette_lookup_total_elem.
Qed.

(** With palette curves that are walks of a whole day, [turn_on] in any of
    the seven palette modes with a non-zero brightness cannot fail: at every
    instant, on the same date or a new one, it completes its cycle with one
    service call and two new pending handles. *)
Theorem palette_modes_never_fail (env : Env) (kw : kwargs) (st : Store)
    (s : Z) (p : list value) :
  curves_built (self st) ->
  (arg_mode kw, (s, p)) ∈ palette_modes ->
  arg_brightness kw <> 0 ->
  exists (st' : Store) (immediate : service_call),
    turn_on env kw st = Some (Ok tt, st') /\
    calls (hass st') = calls (hass st) ++ [immediate] /\
    length (_currSched (self st')) =
      ((if arg_nocancel kw then length (_currSched (self st)) else 0) + 2)%nat.
Proof.
  intros Hbuilt Hin Hbr.
  destruct (palette_modes_sound _ _ _ Hin) as (Hs & Hp & Hw & Hlen & Hm).
  rewrite turn_on_prologue_exact.
  set (oc := if arg_nocancel kw then self st else set_currSched [] (self st)).
  set (h := if arg_nocancel kw then hass st else _).
  assert (curves_built (refreshed env oc)) as Hbuilt'.
  { apply refreshed_curves_built. subst oc. by destruct (arg_nocancel kw). }
  destruct (Hbuilt' _ _ _ Hin) as [e He].
  set (tp := cyclic_curve e (e + 86399 * Dt.SECOND) s p) in He.
  set (o := set_brightness_override _ _).
  assert (increasing tp) as Hinc by (by apply cyclic_curve_increasing).
  assert (2 <= length tp)%nat as Hlen'.
  { subst tp. rewrite cyclic_curve_length.
    by replace (e + 86399 * Dt.SECOND - e) with (86399 * Dt.SECOND) by lia. }
  destruct (bracket_exists tp (now o) Hinc Hlen') as (b & Hbk & Hprev & Hnext).
  assert (forall kp : keypoint,
            kp ∈ tp -> (value_width (_mode o) <= length (kp_value kp))%nat)
    as Hwide.
  { intros kp Hkp. subst o. project. unfold value_width.
    rewrite decide_False by done.
    rewrite Forall_forall in Hw. apply Hw.
    by apply (cyclic_curve_values e (e + 86399 * Dt.SECOND) s). }
  destruct (turn_on_body_completes env kw o h tp b)
    as (c & d & rearm & ->); [done | done | done | by apply Hwide
                             | by apply Hwide |].
  eexists _, c. split; [done |].
  rewrite after_cycle_calls, after_cycle_currSched, length_app.
  subst o h oc. project. rewrite refreshed_currSched.
  by destruct (arg_nocancel kw).
Qed.

Lemma palette_modes_never_fail_witness :
  exists (st' : Store) (immediate : service_call),
    turn_on (Demo.env_at 0) (Demo.mode_kw "Fun2") Demo.fresh
      = Some (Ok tt, st') /\
    calls (hass st') = calls (hass Demo.fresh) ++ [immediate] /\
    length (_currSched (self st')) =
      ((if arg_nocancel (Demo.mode_kw "Fun2")
        then length (_currSched (self Demo.fresh)) else 0) + 2)%nat.
Proof.
  apply (palette_modes_never_fail (Demo.env_at 0) (Demo.mode_kw "Fun2")
           Demo.fresh (Dt.minutes 2 / 8)
           (drop 1 vivid_trip_points ++ take 1 vivid_trip_points)).
  - apply Demo_blank_after_init_built.
  - right. right. left.
  - vm_compute. discriminate.
Defined.

(** ** The modes the object knows *)

Lemma getColorModes_elem (o : RightLight) (m : string) :
  m ∈ getColorModes o <-> is_Some (trip_points o !! m).
Proof.
  unfold getColorModes. rewrite list_elem_of_fmap. split.
  - intros ([m' c] & -> & Hin). apply elem_of_map_to_list in Hin.
    by exists c.
  - intros [c Hc]. exists (m, c). split; [done |].
    by apply elem_of_map_to_list.
Qed.

Lemma built_trip_points_is_Some (o : RightLight) (m : string) :
  is_Some (built_trip_points o !! m) <->
  m ∈ mode_names \/ is_Some (trip_points o !! m).
Proof.
  destruct (decide (m ∈ mode_names)) as [Hin | Hout].
  - split; [by left |]. intros _.
    unfold mode_names in Hin. unfold built_trip_points. cbv zeta.
    repeat (apply elem_of_cons in Hin as [-> | Hin];
            [by repeat (rewrite lookup_insert_ne by done);
                rewrite lookup_insert_eq |]).
    by apply elem_of_nil in Hin.
  - rewrite built_trip_points_other by done. split; [by right |].
    by intros [? | ?].
Qed.


(** The constructor talks to nobody: it makes no service call and creates
    no task.  It leaves an object in mode "Off" with an empty pending
    collection, whose modes are exactly the eight names of
    [defineTripPoints] and whose palette curves are walks of the day of
    [now]: each starts at the midnight at or before [now], less than a
    day back, and runs to 23:59:59 of that day. *)
Theorem init_builds_the_curves (ent : string) (h : Hass) (debug : Z)
    (env : Env) :
  exists st' : Store,
    __init__ ent h debug env = Some (Ok tt, st') /\
    hass st' = h /\
    _entity (self st') = ent /\
    _mode (self st') = "Off" /\
    _currSched (self st') = [] /\
    today (self st') = Some (date_today env) /\
    (forall m : string, m ∈ getColorModes (self st') <-> m ∈ mode_names) /\
    midnight_early (self st') <= dt_now env
      < midnight_early (self st') + Dt.DAY /\
    midnight_early (self st') mod Dt.DAY = 0 /\
    (forall (m : string) (s : Z) (p : list value),
        (m, (s, p)) ∈ palette_modes ->
        trip_points (self st') !! m =
        Some (cyclic_curve (midnight_early (self st'))
                (midnight_early (self st') + 86399 * Dt.SECOND) s p)).
Proof.
  unfold __init__. rewrite _getNow_exact. eexists. split; [done |].
  cbn [self hass]. unfold refreshed, new_RightLight.
  rewrite bool_decide_eq_false_2 by discriminate. project.
  repeat (split; [done |]).
  pose proof (Z.mod_pos_bound (dt_now env) Dt.DAY ltac:(done)) as Hm.
  split.
  { intros m. rewrite getColorModes_elem. project.
    rewrite built_trip_points_is_Some. project.
    rewrite lookup_empty. split; [| by left].
    intros [? | [? ?]]; done. }
  split; [unfold Dt.replace_hms; lia |]. split.
  { unfold Dt.replace_hms.
    replace (dt_now env - dt_now env mod Dt.DAY
             + (0 * 3600 + 0 * 60 + 0) * Dt.SECOND)
      with (dt_now env / Dt.DAY * Dt.DAY)
      by (pose proof (Z.div_mod (dt_now env) Dt.DAY ltac:(done)); lia).
    by apply Z.mod_mul. }
  intros m s p Hin.
  rewrite (built_palette_lookup _ m s p Hin). project.
  do 2 f_equal. unfold Dt.replace_hms, Dt.SECOND. lia.
Qed.







(** ** The Normal curve *)

Lemma increasing_adjacent (tp : list keypoint) :
  (forall (i : nat) (a b : keypoint),
      tp !! i = Some a -> tp !! S i = Some b -> timestamp a < timestamp b) ->
  increasing tp.
Proof.
  intros Hadj i j a b Hij Ha Hb.
  remember (j - i - 1)%nat as d eqn:Hd.
  revert i a Hij Ha Hd. induction d as [| d IH]; intros i a Hij Ha Hd.
  - replace j with (S i) in Hb by lia. by eapply Hadj.
  - destruct (lookup_lt_is_Some_2 tp (S i)) as [c Hc].
    { apply lookup_lt_Some in Hb. lia. }
    pose proof (Hadj i a c Ha Hc).
    pose proof (IH (S i) c ltac:(lia) Hc ltac:(lia)). lia.
Qed.

Lemma normal_trip_points_increasing (o : RightLight) :
  increasing (normal_trip_points o) <->
  midnight_early o < sunrise o - Dt.minutes 60 /\
  sunrise o + Dt.minutes 30 < sunset o - Dt.minutes 90 /\
  sunset o < ten_thirty o /\
  ten_thirty o < midnight_late o.
Proof.
  unfold Dt.minutes, Dt.MINUTE, Dt.SECOND. split.
  - intros Hinc.
    pose proof (Hinc 0 1 _ _ ltac:(lia) eq_refl eq_refl)%nat as H01.
    pose proof (Hinc 4 5 _ _ ltac:(lia) eq_refl eq_refl)%nat as H45.
    pose proof (Hinc 7 8 _ _ ltac:(lia) eq_refl eq_refl)%nat as H78.
    pose proof (Hinc 8 9 _ _ ltac:(lia) eq_refl eq_refl)%nat as H89.
    unfold timestamp, Dt.minutes, Dt.MINUTE, Dt.SECOND in *. simpl in *. lia.
  - intros (H1 & H2 & H3 & H4). apply increasing_adjacent.
    intros i a b Ha Hb. unfold normal_trip_points in Ha, Hb.
    do 10 (destruct i as [| i];
           [cbn in Ha, Hb;
            first [ discriminate Hb
                  | injection Ha as <-; injection Hb as <-;
                    unfold timestamp, Dt.minutes, Dt.MINUTE, Dt.SECOND;
                    simpl; lia ] |]).
    discriminate Ha.
Qed.

(** On a new date, outside debug mode 2, the refresh leaves a Normal curve
    of ten key points from midnight to 23:59:59, and its timestamps grow
    strictly exactly when the sunrise comes more than an hour after
    midnight, the sunset more than two hours after the sunrise, and the
    sunset before 22:30. *)
Theorem normal_curve_well_formed (env : Env) (st : Store) :
  today (self st) <> Some (date_today env) ->
  _debug (self st) <> 2 ->
  exists (st' : Store) (tp : list keypoint),
    _getNow env st = Some (Ok tt, st') /\
    trip_points (self st') !! "Normal" = Some tp /\
    length tp = 10%nat /\
    head tp = Some (midnight_early (self st'), [2500; 150]) /\
    last tp = Some (midnight_early (self st') + 86399 * Dt.SECOND,
                    [2500; 150]) /\
    values_wide 2 tp /\
    (increasing tp <->
     Dt.minutes 60 < sun_get_sunrise_time env mod Dt.DAY /\
     sun_get_sunrise_time env mod Dt.DAY + Dt.minutes 120
       < sun_get_sunset_time env mod Dt.DAY /\
     sun_get_sunset_time env mod Dt.DAY < 81000 * Dt.SECOND).
Proof.
  intros Hnew Hdebug. destruct st as [o h]. cbn [self] in *.
  eexists _, _. split; [apply _getNow_exact |].
  cbn [self]. unfold refreshed.
  rewrite bool_decide_eq_false_2 by congruence. project.
  split.
  { rewrite built_normal_lookup. project.
    by rewrite (proj2 (Z.eqb_neq _ _) Hdebug). }
  split; [done |]. split; [done |]. split.
  { unfold normal_trip_points. cbn [last]. project.
    unfold Dt.replace_hms, Dt.SECOND. do 2 f_equal. lia. }
  split.
  { unfold values_wide. repeat (apply Forall_cons_2; [simpl; lia |]).
    apply Forall_nil_2. }
  rewrite normal_trip_points_increasing. project.
  unfold Dt.replace_hms, Dt.replace_date, Dt.minutes, Dt.MINUTE, Dt.SECOND.
  lia.
Qed.

Lemma normal_curve_well_formed_witness :
  exists (st' : Store) (tp : list keypoint),
    _getNow (Demo.env_at Demo.noon) Demo.blank = Some (Ok tt, st') /\
    trip_points (self st') !! "Normal" = Some tp /\
    length tp = 10%nat /\
    head tp = Some (midnight_early (self st'), [2500; 150]) /\
    last tp = Some (midnight_early (self st') + 86399 * Dt.SECOND,
                    [2500; 150]) /\
    values_wide 2 tp /\
    (increasing tp <->
     Dt.minutes 60 < sun_get_sunrise_time (Demo.env_at Demo.noon) mod Dt.DAY /\
     sun_get_sunrise_time (Demo.env_at Demo.noon) mod Dt.DAY + Dt.minutes 120
       < sun_get_sunset_time (Demo.env_at Demo.noon) mod Dt.DAY /\
     sun_get_sunset_time (Demo.env_at Demo.noon) mod Dt.DAY
       < 81000 * Dt.SECOND).
Proof.
  apply (normal_curve_well_formed (Demo.env_at Demo.noon) Demo.blank).
  - discriminate.
  - discriminate.
Defined.

(** ** Fun1 and Fun2 *)

Lemma rotated_palette (p : list value) (i : nat) :
  p <> [] ->
  length (drop 1 p ++ take 1 p) = length p /\
  (drop 1 p ++ take 1 p) !!! (i mod length p)%nat
  = p !!! (S i mod length p)%nat.
Proof.
  intros Hne. destruct p as [| v p]; [done |].
  cbn [drop take length]. rewrite drop_0, take_0.
  split; [rewrite length_app; simpl; lia |].
  set (k := S (length p)).
  assert (i mod k < k)%nat as Hj by (apply Nat.mod_upper_bound; lia).
  replace (S i mod k)%nat with ((i mod k + 1) mod k)%nat
    by (rewrite Nat.Div0.add_mod_idemp_l; f_equal; lia).
  destruct (decide (i mod k + 1 < k)%nat) as [Hlt | Hge].
  - rewrite (Nat.mod_small (i mod k + 1)) by done.
    rewrite lookup_total_app_l by (subst k; lia).
    by replace (i mod k + 1)%nat with (S (i mod k)) by lia.
  - replace (i mod k + 1)%nat with k by lia.
    rewrite Nat.Div0.mod_same.
    rewrite lookup_total_app_r by (subst k; lia).
    by replace (i mod k - length p)%nat with O by (subst k; lia).
Qed.

(** Fun2 is Fun1 one colour ahead: the curves [defineTripPoints] stores
    for the two modes have the same length and the same timestamps, and
    the value of each key point of Fun2 is the value of the following key
    point of Fun1. *)
Theorem Fun2_runs_one_colour_ahead (o : RightLight) (h : Hass) :
  exists (st' : Store) (fun1 fun2 : list keypoint),
    defineTripPoints (MkStore o h) = Some (Ok tt, st') /\
    trip_points (self st') !! "Fun1" = Some fun1 /\
    trip_points (self st') !! "Fun2" = Some fun2 /\
    length fun2 = length fun1 /\
    forall (i : nat) (kp2 : keypoint),
      fun2 !! i = Some kp2 ->
      exists kp1 : keypoint,
        fun1 !! i = Some kp1 /\
        timestamp kp1 = timestamp kp2 /\
        forall kp1' : keypoint,
          fun1 !! S i = Some kp1' -> kp_value kp1' = kp_value kp2.
Proof.
  rewrite defineTripPoints_spec. eexists _, _, _.
  split; [done |]. project.
  split.
  { apply (built_palette_lookup o "Fun1"). right. left. }
  split.
  { apply (built_palette_lookup o "Fun2"). right. right. left. }
  split; [by rewrite !cyclic_curve_length |].
  intros i kp2 H2.
  apply cyclic_curve_lookup in H2 as [Hlt ->].
  eexists. split; [by apply cyclic_curve_lookup_lt |].
  split; [done |].
  intros kp1' H1'. apply cyclic_curve_lookup in H1' as [_ ->].
  unfold kp_value. cbn [snd].
  destruct (rotated_palette vivid_trip_points i ltac:(done)) as [Hlen Hrot].
  by rewrite Hlen, Hrot.
Qed.

(** ** The chain of re-arms *)

Lemma last_two {A : Type} (l : list A) (a b : A) : last (l ++ [a; b]) = Some b.
Proof.
  change [a; b] with ([a] ++ [b]). rewrite app_assoc. apply last_snoc.
Qed.

(** When the re-arm task of a completed cycle fires, [delay_run] calls
    [turn_on] again in the mode and with the brightness of the call that
    armed it, and this call cancels nothing: whatever its outcome, the
    tasks and the pending collection of the cycle are a prefix of the ones
    it leaves. *)
Theorem rearm_fires_a_repeat (env env' : Env) (kw : kwargs)
    (st st' : Store) (t : task) :
  turn_on env kw st = Some (Ok tt, st') ->
  arg_brightness kw <> 0 ->
  last (tasks (hass st')) = Some t ->
  exists (r : result unit) (st'' : Store),
    delay_run env' (target t) st' = Some (r, st'') /\
    tasks (hass st') `prefix_of` tasks (hass st'') /\
    _currSched (self st') `prefix_of` _currSched (self st'') /\
    _mode (self st'') = arg_mode kw /\
    _brightness (self st'') = arg_brightness kw.
Proof.
  intros Hrun Hbr Hlast.
  destruct (turn_on_cycle env kw st st' Hrun Hbr)
    as (o & h & tp & b & imm & drift & rearm & Hpro & _ & _ & Hst' & Hre).
  destruct Hpro as (_ & _ & Hm & Hb & _).
  assert (target t = call_turn_on rearm) as ->.
  { rewrite Hst', after_cycle_tasks, last_two in Hlast.
    by injection Hlast as <-. }
  assert (arg_nocancel rearm = true /\ arg_mode rearm = arg_mode kw /\
          arg_brightness rearm = arg_brightness kw) as (Hnc & Hm' & Hb').
  { destruct Hre as [[Hn ->] | [Hn ->]];
      unfold normal_rearm, rgb_rearm, arg_nocancel, arg_mode, arg_brightness;
      cbn [kw_nocancel kw_mode kw_brightness default from_option];
      fold (arg_mode kw); fold (arg_brightness kw);
      rewrite ?Hb, ?Hm, ?Hn; done. }
  clear Hrun Hst' Hlast Hre. cbn [delay_run].
  destruct (turn_on_outcome env' rearm st')
    as (o' & h' & r & st'' & Hpro & Hrun & Hout).
  exists r, st''. split; [done |].
  destruct Hpro as (Hh & Hcs & Hmo & Hbo & _).
  rewrite Hnc in Hh, Hcs. rewrite Hm' in Hmo. rewrite Hb' in Hbo.
  subst h'.
  destruct Hout as [H0 | ? ? | e tp' ? ? | tp' b' dp dn ? ? ? ? ? ?
                    | tp' b' rgb ? ? ? ? ?]; [congruence | | | |];
    project; rewrite ?after_cycle_tasks, ?after_cycle_currSched, ?Hcs;
    (split; [by try apply prefix_app_r |]);
    (split; [by try apply prefix_app_r |]); done.
Qed.

Lemma rearm_fires_a_repeat_witness :
  exists (r : result unit) (st'' : Store),
    delay_run (Demo.env_at Demo.noon)
      (target (Task 1
                 (call_turn_on
                    (Kwargs (Some true) None (Some 255) (Some 0) None))
                 false))
      Demo.lit = Some (r, st'') /\
    tasks (hass Demo.lit) `prefix_of` tasks (hass st'') /\
    _currSched (self Demo.lit) `prefix_of` _currSched (self st'') /\
    _mode (self st'') = arg_mode (Kwargs None None None None None) /\
    _brightness (self st'') = arg_brightness (Kwargs None None None None None).
Proof.
  apply (rearm_fires_a_repeat (Demo.env_at 0) (Demo.env_at Demo.noon)
           (Kwargs None None None None None) Demo.fresh Demo.lit).
  - apply after_succeeds. vm_compute. reflexivity.
  - vm_compute. discriminate.
  - vm_compute. reflexivity.
Defined.

Lemma seconds_negative (d : Z) :
  - Dt.DAY < d < 0 -> Dt.seconds d = (Dt.DAY + d) / Dt.SECOND.
Proof.
  intros Hd. unfold Dt.seconds.
  replace (d mod Dt.DAY) with (Dt.DAY + d); [done |].
  apply (Z.mod_unique_pos d Dt.DAY (-1)); lia.
Qed.

(** Past the last key point of the curve, by less than a day, the cycle
    still completes, and its re-arm is due a whole day minus the time gone
    since that key point, in whole seconds, plus one: the next cycle of the
    chain comes almost a day later. *)
Theorem rearm_past_last_key_point (env : Env) (kw : kwargs) (st : Store)
    (tp : list keypoint) (kp_last : keypoint) :
  today (self st) = Some (date_today env) ->
  trip_points (self st) !! arg_mode kw = Some tp ->
  arg_brightness kw <> 0 ->
  increasing tp ->
  (2 <= length tp)%nat ->
  values_wide (value_width (arg_mode kw)) tp ->
  last tp = Some kp_last ->
  timestamp kp_last < dt_now env < timestamp kp_last + Dt.DAY ->
  exists (st' : Store) (rearm : kwargs),
    turn_on env kw st = Some (Ok tt, st') /\
    last (tasks (hass st')) =
      Some (Task ((Dt.DAY - (dt_now env - timestamp kp_last)) / Dt.SECOND + 1)
              (call_turn_on rearm) false).
Proof.
  intros Htoday Htp Hbr Hinc Hlen Hwide Hlast Hnow.
  rewrite last_lookup in Hlast.
  replace (pred (length tp)) with (length tp - 1)%nat in Hlast by lia.
  destruct (lookup_lt_is_Some_2 tp (length tp - 2) ltac:(lia)) as [kpm Hm].
  assert (exhausted tp (dt_now env)) as Hex.
  { intros kp Hin. apply list_elem_of_lookup in Hin as [i Hi].
    destruct (decide (i = length tp - 1)%nat) as [-> | Hne].
    - rewrite Hlast in Hi. injection Hi as <-. lia.
    - pose proof (lookup_lt_Some _ _ _ Hi).
      pose proof (Hinc i (length tp - 1)%nat kp kp_last ltac:(lia) Hi Hlast).
      lia. }
  assert (bracket_of tp (dt_now env)
            (Bracket (length tp - 1) kpm kp_last
               (Z2F (dt_now env - timestamp kpm)
                / Z2F (timestamp kp_last - timestamp kpm))%float
               (Dt.seconds (timestamp kp_last - dt_now env)))) as Hbk.
  { apply bracket_intro.
    - apply scan_exhausted; [| done]. intros ->. simpl in Hlen. lia.
    - replace (length tp - 1)%nat with (S (length tp - 2)) by lia.
      by apply py_index_pred.
    - by apply py_index_nonneg.
    - apply (increasing_distinct tp (length tp - 2) (length tp - 1));
        [done | lia | done | done]. }
  unfold values_wide in Hwide. rewrite Forall_forall in Hwide.
  destruct (turn_on_prologue env kw st) as (o & h & Heq & Hpro).
  pose proof Hpro as (_ & _ & Hmo & Hb & _ & Hno & _ & _ & Hsame).
  rewrite <- Hno in Hbk.
  destruct (turn_on_body_completes env kw o h tp _ ltac:(by rewrite Hb)
              ltac:(by rewrite Hmo, (Hsame Htoday)) Hbk)
    as (c & d & rearm & Hrun).
  { rewrite Hmo. apply Hwide. by eapply list_elem_of_lookup_2. }
  { rewrite Hmo. apply Hwide. by eapply list_elem_of_lookup_2. }
  eexists _, rearm. split; [by rewrite Heq, Hrun |].
  rewrite after_cycle_tasks, last_two.
  cbn [b_time_rem]. rewrite seconds_negative by lia. rewrite Hno.
  by replace (Dt.DAY + (timestamp kp_last - dt_now env))
    with (Dt.DAY - (dt_now env - timestamp kp_last)) by lia.
Qed.

Lemma rearm_past_last_key_point_witness :
  exists (st' : Store) (rearm : kwargs),
    turn_on (Demo.env_at Demo.late) (Demo.mode_kw "Vivid") Demo.fresh
      = Some (Ok tt, st') /\
    last (tasks (hass st')) =
      Some (Task ((Dt.DAY
                   - (dt_now (Demo.env_at Demo.late)
                      - timestamp (Demo.midnight + 86280 * Dt.SECOND,
                                   [255; 127; 0])))
                  / Dt.SECOND + 1)
              (call_turn_on rearm) false).
Proof.
  apply (rearm_past_last_key_point (Demo.env_at Demo.late)
           (Demo.mode_kw "Vivid") Demo.fresh
           (cyclic_curve Demo.midnight (Demo.midnight + 86399 * Dt.SECOND)
              (Dt.minutes 2) vivid_trip_points)).
  - vm_compute. reflexivity.
  - vm_compute. reflexivity.
  - vm_compute. discriminate.
  - apply cyclic_curve_increasing. reflexivity.
  - vm_compute. lia.
  - unfold values_wide. apply (bool_decide_unpack _). vm_compute. exact I.
  - vm_compute. reflexivity.
  - vm_compute. split; reflexivity.
Defined.

(** ** The Normal mode on a new day *)

(** On a new date, outside debug mode 2, when the sunrise comes more than
    an hour after midnight, the sunset more than two hours after the
    sunrise and before 22:30, [turn_on] in Normal mode with a non-zero
    brightness cannot fail, at whatever instant of the day it is called: it
    completes its cycle with one service call and two new pending
    handles. *)
Theorem normal_mode_completes_on_new_date (env : Env) (kw : kwargs)
    (st : Store) :
  today (self st) <> Some (date_today env) ->
  _debug (self st) <> 2 ->
  arg_mode kw = "Normal" ->
  arg_brightness kw <> 0 ->
  Dt.minutes 60 < sun_get_sunrise_time env mod Dt.DAY ->
  sun_get_sunrise_time env mod Dt.DAY + Dt.minutes 120
    < sun_get_sunset_time env mod Dt.DAY ->
  sun_get_sunset_time env mod Dt.DAY < 81000 * Dt.SECOND ->
  exists (st' : Store) (immediate : service_call),
    turn_on env kw st = Some (Ok tt, st') /\
    calls (hass st') = calls (hass st) ++ [immediate] /\
    length (_currSched (self st')) =
      ((if arg_nocancel kw then length (_currSched (self st)) else 0) + 2)%nat.
Proof.
  intros Hnew Hdebug Hmode Hbr Hrise Hgap Hset.
  rewrite turn_on_prologue_exact.
  set (oc := if arg_nocancel kw then self st else set_currSched [] (self st)).
  set (h := if arg_nocancel kw then hass st else _).
  assert (today oc = today (self st) /\ _debug oc = _debug (self st) /\
          _currSched oc =
            (if arg_nocancel kw then _currSched (self st) else []))
    as (Htoday & Hdbg & Hcs).
  { subst oc. by destruct (arg_nocancel kw). }
  unfold refreshed. rewrite bool_decide_eq_false_2 by congruence.
  cbv zeta.
  set (o2 := set_markers _ _ _ _).
  set (o := set_brightness_override _ _).
  assert (trip_points o !! _mode o = Some (normal_trip_points o2)) as Htp.
  { subst o. project. rewrite Hmode, built_normal_lookup.
    replace (_debug o2) with (_debug (self st)) by (by rewrite <- Hdbg).
    by rewrite (proj2 (Z.eqb_neq _ _) Hdebug). }
  assert (increasing (normal_trip_points o2)) as Hinc.
  { apply normal_trip_points_increasing. subst o2. project.
    unfold Dt.replace_hms, Dt.replace_date, Dt.minutes, Dt.MINUTE,
      Dt.SECOND in *. lia. }
  destruct (bracket_exists (normal_trip_points o2) (now o) Hinc
              ltac:(simpl; lia)) as (b & Hbk & Hprev & Hnext).
  assert (forall kp : keypoint,
            kp ∈ normal_trip_points o2 ->
            (value_width (_mode o) <= length (kp_value kp))%nat) as Hwide.
  { intros kp Hkp. subst o. project. rewrite Hmode.
    unfold value_width. rewrite decide_True by done.
    unfold normal_trip_points in Hkp.
    repeat (apply elem_of_cons in Hkp as [-> | Hkp]; [cbn; lia |]).
    by apply elem_of_nil in Hkp. }
  destruct (turn_on_body_completes env kw o h (normal_trip_points o2) b)
    as (c & d & rearm & ->); [done | done | done | by apply Hwide
                             | by apply Hwide |].
  eexists _, c. split; [done |].
  rewrite after_cycle_calls, after_cycle_currSched, length_app.
  subst o h. project. subst o2. project. rewrite Hcs.
  by destruct (arg_nocancel kw).
Qed.

Lemma normal_mode_completes_on_new_date_witness :
  exists (st' : Store) (immediate : service_call),
    turn_on (Demo.env_at 0) Demo.plain_kw Demo.blank = Some (Ok tt, st') /\
    calls (hass st') = calls (hass Demo.blank) ++ [immediate] /\
    length (_currSched (self st')) =
      ((if arg_nocancel Demo.plain_kw
        then length (_currSched (self Demo.blank)) else 0) + 2)%nat.
Proof.
  apply (normal_mode_completes_on_new_date (Demo.env_at 0) Demo.plain_kw
           Demo.blank).
  - discriminate.
  - discriminate.
  - reflexivity.
  - vm_compute. discriminate.
  - reflexivity.
  - reflexivity.
  - reflexivity.
Defined.
